(** * Nearest-infrastructure analysis pipeline

    A shallow embedding of [EnviroLab/location_api/Dummy NetCDF Data
    Generator.py]: the place resolver [find_nearest_place], the climate
    lookup [get_current_humidity], the narrative generator
    [generate_infrastructure_analysis] and the orchestrator [main].

    Python values are the values [json] decoding produces; text is a
    [string] whose characters are the code points below 256.  Whitespace is
    classified on all of them; case is that of the ASCII letters, so what is
    said of [str.title] is said of ASCII text, the alphabet of the place
    categories, and [UStr] has the loop of [str.title] on code points with
    the records of the characters beyond ASCII that are used below.
    Printing, HTTP requests and calls of
    the generative client are events of a trace; a computation yields its
    trace and either a value or a raised exception.  The remote services and
    the environment are a [World]; the functions of Python's [json] module
    and [repr], which the script only calls, are a [PyLib]. *)

From Stdlib Require Import String Ascii List ZArith Bool Arith Lia.
From Stdlib Require Import Floats.PrimFloat.
Import ListNotations.
Open Scope string_scope.

(** ** Python [str] methods used by the script *)

Module Str.

Local Open Scope nat_scope.

Definition code (c : ascii) : nat := nat_of_ascii c.

(** [str.isspace], which [str.strip] goes by, on the code points below 256:
    TAB..CR, FS..US, the space, NEL (U+0085) and the no-break space (U+00A0). *)
Definition is_space (c : ascii) : bool :=
  ((9 <=? code c) && (code c <=? 13)) || ((28 <=? code c) && (code c <=? 32))
  || (code c =? 133) || (code c =? 160).

Definition is_ascii (c : ascii) : bool := code c <? 128.

(** The four characters the JSON grammar calls whitespace. *)
Definition is_json_ws (c : ascii) : bool :=
  (code c =? 32) || (code c =? 9) || (code c =? 10) || (code c =? 13).

(** Case on ASCII text, where the letters are [A]..[Z] and [a]..[z]; the
    cased characters beyond them have their records in [UStr]. *)
Definition is_upper (c : ascii) : bool := (65 <=? code c) && (code c <=? 90).
Definition is_lower (c : ascii) : bool := (97 <=? code c) && (code c <=? 122).
Definition is_cased (c : ascii) : bool := is_upper c || is_lower c.

Definition to_upper (c : ascii) : ascii :=
  if is_lower c then ascii_of_nat (code c - 32) else c.
Definition to_lower (c : ascii) : ascii :=
  if is_upper c then ascii_of_nat (code c + 32) else c.

Fixpoint all (p : ascii -> bool) (s : string) : bool :=
  match s with
  | EmptyString => true
  | String c s' => p c && all p s'
  end.

(** [s.startswith(p)] *)
Fixpoint startswith (p s : string) : bool :=
  match p, s with
  | EmptyString, _ => true
  | String _ _, EmptyString => false
  | String a p', String b s' => Ascii.eqb a b && startswith p' s'
  end.

(** [p in s] *)
Fixpoint contains (p s : string) : bool :=
  startswith p s ||
  match s with
  | EmptyString => false
  | String _ s' => contains p s'
  end.

Fixpoint lstrip (s : string) : string :=
  match s with
  | EmptyString => EmptyString
  | String c s' => if is_space c then lstrip s' else s
  end.

Fixpoint rstrip (s : string) : string :=
  match s with
  | EmptyString => EmptyString
  | String c s' =>
      match rstrip s' with
      | EmptyString => if is_space c then EmptyString else String c EmptyString
      | r => String c r
      end
  end.

(** [s.strip()] *)
Definition strip (s : string) : string := rstrip (lstrip s).

(** Left-to-right scan of [s.replace(old, new)] for a non-empty [old]:
    [skip] counts the characters of a match still to be passed over. *)
Fixpoint replace_scan (old new : string) (skip : nat) (s : string) : string :=
  match s with
  | EmptyString => EmptyString
  | String c s' =>
      match skip with
      | S k => replace_scan old new k s'
      | O =>
          if startswith old s
          then new ++ replace_scan old new (String.length old - 1) s'
          else String c (replace_scan old new 0 s')
      end
  end.

(** [s.replace("", new)] puts [new] before every character and at the end. *)
Fixpoint intersperse (new s : string) : string :=
  match s with
  | EmptyString => new
  | String c s' => new ++ String c (intersperse new s')
  end.

(** [s.replace(old, new)] *)
Definition replace (old new s : string) : string :=
  match old with
  | EmptyString => intersperse new s
  | String _ _ => replace_scan old new 0 s
  end.

(** The loop of [str.title] on ASCII text: a character that follows a cased
    one is lowered, any other is raised. *)
Fixpoint title_scan (previous_is_cased : bool) (s : string) : string :=
  match s with
  | EmptyString => EmptyString
  | String c s' =>
      String (if previous_is_cased then to_lower c else to_upper c)
             (title_scan (is_cased c) s')
  end.

(** [s.title()] for an ASCII [s] *)
Definition title (s : string) : string := title_scan false s.

Definition dquote : string := String (ascii_of_nat 34) EmptyString.
Definition nl : string := String (ascii_of_nat 10) EmptyString.

(** ["\n".join(ls)] *)
Fixpoint join_lines (ls : list string) : string :=
  match ls with
  | [] => EmptyString
  | [l] => l
  | l :: ls' => l ++ nl ++ join_lines ls'
  end.

End Str.

(** ** [str.replace] and [str.title] on Unicode text *)

Module UStr.

Local Open Scope N_scope.

(** A text as the list of its code points. *)
Definition t : Type := list N.

Definition codes (s : string) : t := map N_of_ascii (list_ascii_of_string s).

(** What [str.title] reads of a character in the Unicode database: whether it
    is cased, its title-case form and its lower-case form. *)
Record casing : Type := {
  cased : bool;
  title_form : t;
  lower_form : t
}.

(** The records held here: every code point below 256, LATIN CAPITAL LETTER
    I WITH DOT ABOVE (U+0130, whose lower-case form is [i] followed by
    U+0307) and COMBINING DOT ABOVE (U+0307, not cased).  Beyond ASCII the
    cased ones are the ordinal indicators U+00AA and U+00BA, the micro sign
    (title-case form U+039C), the letters U+00C0..U+00DE and U+00DF..U+00FF
    without the two operators U+00D7 and U+00F7, where the sharp s has the
    title-case form [Ss] and U+00FF the title-case form U+0178.  [None]: no
    record held. *)
Definition record (c : N) : option casing :=
  if c <? 128 then
    Some (if (65 <=? c) && (c <=? 90)
          then {| cased := true; title_form := [c]; lower_form := [c + 32] |}
          else if (97 <=? c) && (c <=? 122)
          then {| cased := true; title_form := [c - 32]; lower_form := [c] |}
          else {| cased := false; title_form := [c]; lower_form := [c] |})
  else if c <? 256 then
    Some (if (c =? 170) || (c =? 186)
          then {| cased := true; title_form := [c]; lower_form := [c] |}
          else if c =? 181
          then {| cased := true; title_form := [924]; lower_form := [c] |}
          else if (192 <=? c) && (c <=? 222) && negb (c =? 215)
          then {| cased := true; title_form := [c]; lower_form := [c + 32] |}
          else if c =? 223
          then {| cased := true; title_form := [83; 115]; lower_form := [c] |}
          else if (224 <=? c) && (c <=? 254) && negb (c =? 247)
          then {| cased := true; title_form := [c - 32]; lower_form := [c] |}
          else if c =? 255
          then {| cased := true; title_form := [376]; lower_form := [c] |}
          else {| cased := false; title_form := [c]; lower_form := [c] |})
  else if c =? 304 then
    Some {| cased := true; title_form := [304]; lower_form := [105; 775] |}
  else if c =? 775 then
    Some {| cased := false; title_form := [775]; lower_form := [775] |}
  else None.

(** The loop of [str.title]: the lower-case form of a character that
    follows a cased one, the title-case form of any other.  [None] when a
    character of the text has no record held. *)
Fixpoint title_scan (previous_is_cased : bool) (s : t) : option t :=
  match s with
  | [] => Some []
  | c :: s' =>
      match record c with
      | None => None
      | Some r =>
          match title_scan (cased r) s' with
          | None => None
          | Some rest =>
              Some ((if previous_is_cased then lower_form r else title_form r)
                    ++ rest)%list
          end
      end
  end.

(** [s.title()] *)
Definition title (s : t) : option t := title_scan false s.

Fixpoint startswith (p s : t) : bool :=
  match p, s with
  | [], _ => true
  | _ :: _, [] => false
  | a :: p', b :: s' => (a =? b) && startswith p' s'
  end.

(** The scan of [s.replace(old, new)] for a non-empty [old], as in [Str]. *)
Fixpoint replace_scan (old new : t) (skip : nat) (s : t) : t :=
  match s with
  | [] => []
  | c :: s' =>
      match skip with
      | S k => replace_scan old new k s'
      | O =>
          if startswith old s
          then (new ++ replace_scan old new (length old - 1) s')%list
          else c :: replace_scan old new 0 s'
      end
  end.

(** [s.replace('_', ' ').title()] on any text. *)
Definition derive_category (s : t) : option t :=
  title (replace_scan [95] [32] 0 s).

End UStr.

(** ** Python values, as [json] decoding produces them *)

#[warnings="-register-all"]
Inductive pyval : Type :=
| PyNone
| PyBool (b : bool)
| PyInt (n : Z)
| PyFloat (f : float)
| PyStr (s : string)
| PyList (l : list pyval)
| PyDict (d : list (string * pyval)).

(** A [dict] keeps its items in insertion order, one item per key. *)
Module Dict.

Definition t : Type := list (string * pyval).

Fixpoint get (d : t) (k : string) : option pyval :=
  match d with
  | [] => None
  | (k', v) :: d' => if String.eqb k k' then Some v else get d' k
  end.

(** [d[k] = v]: an existing key keeps its place and takes the new value,
    a new key goes last. *)
Fixpoint set (d : t) (k : string) (v : pyval) : t :=
  match d with
  | [] => [(k, v)]
  | (k', v') :: d' =>
      if String.eqb k k' then (k', v) :: d' else (k', v') :: set d' k v
  end.

(** [{**d, **extra}]: the items of [extra] are set one after the other. *)
Definition update (d extra : t) : t :=
  fold_left (fun acc kv => set acc (fst kv) (snd kv)) extra d.

Definition keys (d : t) : list string := map fst d.

End Dict.

(** [bool(v)] *)
Definition truthy (v : pyval) : bool :=
  match v with
  | PyNone => false
  | PyBool b => b
  | PyInt n => negb (n =? 0)%Z
  | PyFloat f => negb (PrimFloat.eqb f 0%float)
  | PyStr s => negb (String.eqb s EmptyString)
  | PyList l => match l with [] => false | _ :: _ => true end
  | PyDict d => match d with [] => false | _ :: _ => true end
  end.

(** ** Exceptions *)

(** The classes the script tells apart, with [NonException] for what
    derives from [BaseException] only ([KeyboardInterrupt], [SystemExit]). *)
Inductive exn_class : Type :=
| RequestException
| KeyError
| IndexError
| TypeError
| AttributeError
| ValueError
| UnboundLocalError
| OtherException
| NonException.

Record exn : Type := Exn { exn_class_of : exn_class; exn_msg : string }.

Inductive result (A : Type) : Type :=
| Return (a : A)
| Raise (e : exn).
Arguments Return {A} a.
Arguments Raise {A} e.

(** [except requests.exceptions.RequestException] *)
Definition is_RequestException (e : exn) : bool :=
  match exn_class_of e with RequestException => true | _ => false end.

(** [except KeyError] *)
Definition is_KeyError (e : exn) : bool :=
  match exn_class_of e with KeyError => true | _ => false end.

(** [except Exception] *)
Definition is_Exception (e : exn) : bool :=
  match exn_class_of e with NonException => false | _ => true end.

(** ** Operations of the script on decoded values *)

Definition type_name (v : pyval) : string :=
  match v with
  | PyNone => "NoneType"
  | PyBool _ => "bool"
  | PyInt _ => "int"
  | PyFloat _ => "float"
  | PyStr _ => "str"
  | PyList _ => "list"
  | PyDict _ => "dict"
  end.

Definition no_attribute (v : pyval) (attr : string) : exn :=
  Exn AttributeError ("'" ++ type_name v ++ "' object has no attribute '" ++ attr ++ "'").

Definition not_subscriptable (v : pyval) : exn :=
  Exn TypeError ("'" ++ type_name v ++ "' object is not subscriptable").

(** [v.get(key, default)]: only a [dict] has the method. *)
Definition py_get (v : pyval) (key : string) (default : pyval) : result pyval :=
  match v with
  | PyDict d =>
      Return (match Dict.get d key with Some x => x | None => default end)
  | _ => Raise (no_attribute v "get")
  end.

(** [v[key]] for a string [key] *)
Definition py_getitem (v : pyval) (key : string) : result pyval :=
  match v with
  | PyDict d =>
      match Dict.get d key with
      | Some x => Return x
      | None => Raise (Exn KeyError ("'" ++ key ++ "'"))
      end
  | PyList _ => Raise (Exn TypeError "list indices must be integers or slices, not str")
  | PyStr _ => Raise (Exn TypeError "string indices must be integers, not 'str'")
  | _ => Raise (not_subscriptable v)
  end.

(** [v[0]]; the keys of a decoded [dict] are strings, so [0] is none of them. *)
Definition py_first (v : pyval) : result pyval :=
  match v with
  | PyList (x :: _) => Return x
  | PyList [] => Raise (Exn IndexError "list index out of range")
  | PyStr (String c _) => Return (PyStr (String c EmptyString))
  | PyStr EmptyString => Raise (Exn IndexError "string index out of range")
  | PyDict _ => Raise (Exn KeyError "0")
  | _ => Raise (not_subscriptable v)
  end.

(** [v.replace(old, new)]: of the decoded values only a [str] has it. *)
Definition py_replace (v : pyval) (old new : string) : result string :=
  match v with
  | PyStr s => Return (Str.replace old new s)
  | _ => Raise (no_attribute v "replace")
  end.

(** [v == s] for a string literal [s] *)
Definition py_eq_str (v : pyval) (s : string) : bool :=
  match v with
  | PyStr s' => String.eqb s' s
  | _ => false
  end.

(** [isinstance(v, dict)] *)
Definition is_dict (v : pyval) : bool :=
  match v with PyDict _ => true | _ => false end.

(** [v is None] *)
Definition is_None (v : pyval) : bool :=
  match v with PyNone => true | _ => false end.

(** [{**d0, **v}] inside a dict display: [v] must be a mapping. *)
Definition py_unpack_into (d0 : Dict.t) (v : pyval) : result pyval :=
  match v with
  | PyDict d => Return (PyDict (Dict.update d0 d))
  | _ => Raise (Exn TypeError ("'" ++ type_name v ++ "' object is not a mapping"))
  end.

(** ** Effects: a trace of events and a raised exception *)

Inductive event : Type :=
| Print (line : string)
| HttpGet (url : string) (params : list (string * string))
| GenaiConfigure (api_key : string)
| GenerateContent (prompt : string).

(** What a network call of the script leaves in the trace. *)
Definition is_network (ev : event) : bool :=
  match ev with
  | HttpGet _ _ => true
  | GenerateContent _ => true
  | _ => false
  end.

Definition M (A : Type) : Type := (list event * result A)%type.

Definition ret {A} (a : A) : M A := ([], Return a).

Definition bind {A B} (m : M A) (k : A -> M B) : M B :=
  match m with
  | (tr, Return a) => let (tr', r) := k a in ((tr ++ tr')%list, r)
  | (tr, Raise e) => (tr, Raise e)
  end.

Definition lift {A} (r : result A) : M A := ([], r).

Definition emit (ev : event) : M unit := ([ev], Return tt).

(** [print(line)] *)
Definition print (line : string) : M unit := emit (Print line).

Notation "x <- m ;; k" := (bind m (fun x => k))
  (at level 61, m at next level, right associativity).
Notation "m ;;; k" := (bind m (fun _ => k))
  (at level 61, right associativity).

(** [try: body  except <catches> as e: handler(e)] *)
Definition try_except {A} (body : M A) (catches : exn -> bool)
    (handler : exn -> M A) : M A :=
  match body with
  | (tr, Raise e) =>
      if catches e then let (tr', r) := handler e in ((tr ++ tr')%list, r)
      else (tr, Raise e)
  | done => done
  end.

(** [try: body  except <c1> as e: h1(e)  except <c2> as e: h2(e)]: the
    first clause that matches handles the exception. *)
Definition try_except2 {A} (body : M A) (c1 : exn -> bool) (h1 : exn -> M A)
    (c2 : exn -> bool) (h2 : exn -> M A) : M A :=
  match body with
  | (tr, Raise e) =>
      if c1 e then let (tr', r) := h1 e in ((tr ++ tr')%list, r)
      else if c2 e then let (tr', r) := h2 e in ((tr ++ tr')%list, r)
      else (tr, Raise e)
  | done => done
  end.

(** [try: x = first; rest(x)  except <catches> as e: handler(e)] where the
    handler reads the local variable [x]: it is unbound when [first] raised. *)
Definition try_assign_except {A B} (first : M A) (rest : A -> M B)
    (catches : exn -> bool) (handler : option A -> exn -> M B) : M B :=
  match first with
  | (tr, Raise e) =>
      if catches e then let (tr', r) := handler None e in ((tr ++ tr')%list, r)
      else (tr, Raise e)
  | (tr, Return x) =>
      let (tr', r) := try_except (rest x) catches (handler (Some x)) in
      ((tr ++ tr')%list, r)
  end.

(** Reading a local variable of the enclosing function. *)
Definition local_var {A} (name : string) (x : option A) : M A :=
  match x with
  | Some a => ret a
  | None =>
      lift (Raise (Exn UnboundLocalError
        ("cannot access local variable '" ++ name ++
         "' where it is not associated with a value")))
  end.

(** ** The world outside the script *)

(** A [requests.Response]: its status, the message [raise_for_status] puts
    in its [HTTPError], and what [response.json()] does. *)
Record Response : Type := {
  status_code : Z;
  http_error_msg : string;
  json_body : result pyval
}.

(** The reply object of the generative client; reading [.text] may raise. *)
Record GenResponse : Type := {
  text : result string
}.

Record World : Type := {
  (** [os.getenv] *)
  getenv : string -> option string;
  (** [requests.get(url, params=params)] *)
  http_get : string -> list (string * string) -> result Response;
  (** [genai.configure(api_key=...)] and [genai.GenerativeModel('gemini-pro')] *)
  genai_configure : string -> result unit;
  (** [model.generate_content(prompt)] *)
  generate_content : string -> result GenResponse
}.

(** The library functions the script calls: [json.loads], [json.dumps] with
    an [indent], and [repr] on floats and on decoded values. *)
Record PyLib : Type := {
  json_loads : string -> result pyval;
  json_dumps : nat -> pyval -> string;
  py_repr : pyval -> string
}.

(** [response.raise_for_status()]: an [HTTPError], which is a
    [RequestException], for the 4xx and 5xx codes. *)
Definition raise_for_status (r : Response) : M unit :=
  if ((400 <=? status_code r) && (status_code r <? 600))%Z
  then lift (Raise (Exn RequestException (http_error_msg r)))
  else ret tt.

(** ** The script *)

Section Script.

Variable lib : PyLib.
Variable w : World.

(** [str(v)], the rendering of [{v}] in an f-string: a [str] is itself,
    any other value is its [repr]. *)
Definition py_str (v : pyval) : string :=
  match v with
  | PyStr s => s
  | _ => py_repr lib v
  end.

Definition requests_get (url : string) (params : list (string * string))
  : M Response :=
  emit (HttpGet url params) ;;; lift (http_get w url params).

(** *** Location resolver *)

Definition places_url : string :=
  "https://maps.googleapis.com/maps/api/place/nearbysearch/json".

Definition places_params (lat lon : float) (api_key : string)
  : list (string * string) :=
  [ ("location", py_str (PyFloat lat) ++ "," ++ py_str (PyFloat lon));
    ("rankby", "distance");
    ("keyword",
     "school,park,hospital,police,fire station,power station,water treatment");
    ("key", api_key) ].

Definition find_nearest_place (lat lon : float) (api_key : string) : M pyval :=
  let base_url := places_url in
  let params := places_params lat lon api_key in
  try_except
    (response <- requests_get base_url params ;;
     raise_for_status response ;;;
     results <- lift (json_body response) ;;
     status <- lift (py_get results "status" PyNone) ;;
     found <- (if py_eq_str status "OK"
               then lift (py_get results "results" PyNone)
               else ret (PyBool false)) ;;
     if truthy found then
       listed <- lift (py_getitem results "results") ;;
       lift (py_first listed)
     else
       status <- lift (py_get results "status" PyNone) ;;
       message <- lift (py_get results "error_message" (PyStr "No results found.")) ;;
       print ("Error from Places API: " ++ py_str status ++ " - " ++ py_str message) ;;;
       ret PyNone)
    is_RequestException
    (fun e =>
       print ("An error occurred during the Places API request: " ++ exn_msg e) ;;;
       ret PyNone).

(** *** Climate lookup *)

Definition weather_url (lat lon : float) : string :=
  "https://api.open-meteo.com/v1/forecast?latitude=" ++ py_str (PyFloat lat)
  ++ "&longitude=" ++ py_str (PyFloat lon) ++ "&current=relative_humidity_2m".

Definition get_current_humidity (lat lon : float) : M pyval :=
  let api_url := weather_url lat lon in
  try_except2
    (response <- requests_get api_url [] ;;
     raise_for_status response ;;;
     data <- lift (json_body response) ;;
     current <- lift (py_getitem data "current") ;;
     lift (py_getitem current "relative_humidity_2m"))
    is_RequestException
    (fun e =>
       print ("An error occurred fetching humidity data: " ++ exn_msg e) ;;;
       ret PyNone)
    is_KeyError
    (fun _ =>
       print "Could not parse humidity from weather API response." ;;;
       ret PyNone).

(** *** Narrative generator *)

Definition quoted (s : string) : string := Str.dquote ++ s ++ Str.dquote.

Definition prompt_of (place_name place_type humidity : pyval) : string :=
  Str.join_lines
    [ EmptyString;
      "    Analyze the following piece of infrastructure based on the provided data.";
      EmptyString;
      "    - Infrastructure Name: " ++ quoted (py_str place_name);
      "    - Infrastructure Type: " ++ quoted (py_str place_type);
      "    - Current Local Humidity: " ++ py_str humidity ++ "%";
      EmptyString;
      "    Based on this information, generate a valid JSON object with the following structure and keys:";
      "    {";
      "        " ++ quoted "ai_summary" ++ ": " ++ quoted
        "A concise, single-paragraph summary. Explain what this infrastructure is used for and how the specified high or low humidity might impact its operations, materials, or the people who use it." ++ ",";
      "        " ++ quoted "resources_used" ++ ": [" ++ quoted
        "A list of 2-3 primary resources this type of infrastructure typically consumes (e.g., electricity, water, fuel)." ++ "],";
      "        " ++ quoted "impact_reduction" ++ ": [" ++ quoted
        "A list of 2-3 actionable suggestions for how this type of infrastructure could reduce its environmental impact." ++ "],";
      "        " ++ quoted "is_critical" ++ ": " ++ quoted
        "A boolean value (true or false) indicating if this infrastructure type is generally considered critical for a community's function and safety.";
      "    }";
      EmptyString;
      "    Provide only the raw JSON object in your response, with no additional text or markdown formatting.";
      "    " ].

(** [text.strip().replace("```json", "").replace("```", "")] *)
Definition clean_reply (reply : string) : string :=
  Str.replace "```" EmptyString
    (Str.replace "```json" EmptyString (Str.strip reply)).

(** The cleaning followed by [json.loads]. *)
Definition parse_reply (reply : string) : result pyval :=
  json_loads lib (clean_reply reply).

Definition generate_infrastructure_analysis
    (place_name place_type humidity : pyval) (api_key : string) : M pyval :=
  if String.eqb api_key EmptyString then
    print "Error: GEMINI_API_KEY environment variable not set." ;;;
    ret PyNone
  else
    configured <-
      try_except
        (emit (GenaiConfigure api_key) ;;;
         lift (genai_configure w api_key) ;;;
         ret true)
        is_Exception
        (fun e =>
           print ("Error configuring Gemini API: " ++ exn_msg e) ;;;
           ret false) ;;
    if negb configured then ret PyNone
    else
      let prompt := prompt_of place_name place_type humidity in
      try_assign_except
        (emit (GenerateContent prompt) ;;; lift (generate_content w prompt))
        (fun response =>
           reply <- lift (text response) ;;
           let cleaned_json_text := clean_reply reply in
           lift (json_loads lib cleaned_json_text))
        is_Exception
        (fun response e =>
           print ("An error occurred during Gemini API call: " ++ exn_msg e) ;;;
           response <- local_var "response" response ;;
           reply <- lift (text response) ;;
           print ("Received text: " ++ reply) ;;;
           ret PyNone).

(** *** Orchestrator *)

(** [not key] for what [os.getenv] gave: unset or empty. *)
Definition env_falsy (key : option string) : bool :=
  match key with
  | None => true
  | Some s => String.eqb s EmptyString
  end.

Definition env_str (key : option string) : string :=
  match key with
  | Some s => s
  | None => EmptyString
  end.

(** [nearest_place.get('name', 'N/A')] *)
Definition place_name_of (nearest_place : pyval) : M pyval :=
  lift (py_get nearest_place "name" (PyStr "N/A")).

(** [s.replace('_', ' ').title()] *)
Definition derive_category (s : string) : string :=
  Str.title (Str.replace "_" " " s).

(** [nearest_place.get('types', ['unknown'])[0].replace('_', ' ').title()] *)
Definition place_type_of (nearest_place : pyval) : M string :=
  types <- lift (py_get nearest_place "types" (PyList [PyStr "unknown"])) ;;
  first <- lift (py_first types) ;;
  replaced <- lift (py_replace first "_" " ") ;;
  ret (Str.title replaced).

(** The end of [main], from the test of [ai_analysis] on: the merge into
    [final_response] and its printing. *)
Definition final_report (place_name : pyval) (place_type : string)
    (ai_analysis : pyval) : M unit :=
  if negb (truthy ai_analysis) then
    print "Failed to generate AI analysis. Exiting."
  else
    final_response <-
      lift (py_unpack_into
              (Dict.set (Dict.set [] "name" place_name) "type" (PyStr place_type))
              ai_analysis) ;;
    print (Str.nl ++ "--- Analysis Complete ---") ;;;
    print (json_dumps lib 4 final_response).

Definition main (latitude longitude : float) : M unit :=
  let google_maps_api_key := getenv w "GOOGLE_MAPS_API_KEY" in
  let gemini_api_key := getenv w "GEMINI_API_KEY" in
  if env_falsy google_maps_api_key then
    print "Error: GOOGLE_MAPS_API_KEY environment variable not set."
  else if env_falsy gemini_api_key then
    print "Error: GEMINI_API_KEY environment variable not set."
  else
    print ("Searching for nearest infrastructure near ("
           ++ py_str (PyFloat latitude) ++ ", " ++ py_str (PyFloat longitude)
           ++ ")...") ;;;
    nearest_place <-
      find_nearest_place latitude longitude (env_str google_maps_api_key) ;;
    if negb (truthy nearest_place) then
      print "Could not find any nearby infrastructure. Exiting."
    else
      place_name <- place_name_of nearest_place ;;
      place_type <- place_type_of nearest_place ;;
      print ("Found nearest place: " ++ py_str place_name
             ++ " (Type: " ++ place_type ++ ")") ;;;
      print "Fetching current climate data..." ;;;
      humidity <- get_current_humidity latitude longitude ;;
      humidity <-
        (if is_None humidity then
           print "Could not retrieve humidity data. Proceeding without it." ;;;
           ret (PyStr "not available")
         else ret humidity) ;;
      print "Generating AI analysis..." ;;;
      ai_analysis <-
        generate_infrastructure_analysis place_name (PyStr place_type) humidity
          (env_str gemini_api_key) ;;
      final_report place_name place_type ai_analysis.

End Script.

(** ** What the properties below refer to *)

(** [json.loads] skips JSON whitespace around a document. *)
Definition loads_skips_whitespace (loads : string -> result pyval) : Prop :=
  forall a s b v,
    Str.all Str.is_json_ws a = true ->
    Str.all Str.is_json_ws b = true ->
    loads s = Return v ->
    loads (a ++ s ++ b) = Return v.

(** A text [json.loads] accepts is accepted, with the same value, once
    [str.strip] has removed the whitespace around it. *)
Definition loads_after_strip (loads : string -> result pyval) : Prop :=
  forall s v, loads s = Return v -> loads (Str.strip s) = Return v.

(** A reply inside a markdown fence: ["```json\n" + t + "\n```"]. *)
Definition fenced (t : string) : string :=
  "```json" ++ Str.nl ++ t ++ Str.nl ++ "```".

(** The value at a path of keys through nested objects. *)
Fixpoint value_at (body : pyval) (path : list string) : option pyval :=
  match path with
  | [] => Some body
  | k :: path' =>
      match body with
      | PyDict d =>
          match Dict.get d k with
          | Some v => value_at v path'
          | None => None
          end
      | _ => None
      end
  end.

Definition is_2xx (r : Response) : Prop := (200 <= status_code r < 300)%Z.
Definition is_4xx_5xx (r : Response) : Prop := (400 <= status_code r < 600)%Z.

(** The place-search exchanges of the resolver's contract, each with the
    value the contract gives it: the first result when the status is 2xx,
    the body's [status] is ["OK"] and [results] is a non-empty list; [None]
    for a transport failure, an HTTP error status, a body that is not JSON,
    another [status], or an empty or missing result list. *)
Inductive place_search : result Response -> pyval -> Prop :=
| PS_found r d x rest :
    is_2xx r ->
    json_body r = Return (PyDict d) ->
    Dict.get d "status" = Some (PyStr "OK") ->
    Dict.get d "results" = Some (PyList (x :: rest)) ->
    place_search (Return r) x
| PS_transport e :
    is_RequestException e = true ->
    place_search (Raise e) PyNone
| PS_http_error r :
    is_4xx_5xx r ->
    place_search (Return r) PyNone
| PS_not_json r e :
    is_2xx r ->
    json_body r = Raise e ->
    is_RequestException e = true ->
    place_search (Return r) PyNone
| PS_status r d :
    is_2xx r ->
    json_body r = Return (PyDict d) ->
    Dict.get d "status" <> Some (PyStr "OK") ->
    place_search (Return r) PyNone
| PS_no_results r d :
    is_2xx r ->
    json_body r = Return (PyDict d) ->
    Dict.get d "results" = Some (PyList []) \/ Dict.get d "results" = None ->
    place_search (Return r) PyNone.

(** The weather exchanges of the lookup's contract: the value at
    [current.relative_humidity_2m] when the status is 2xx and the objects on
    the path have the keys; [None] for a failed request or a missing key. *)
Inductive weather_lookup : result Response -> pyval -> Prop :=
| WL_found r d c v :
    is_2xx r ->
    json_body r = Return (PyDict d) ->
    Dict.get d "current" = Some (PyDict c) ->
    Dict.get c "relative_humidity_2m" = Some v ->
    weather_lookup (Return r) v
| WL_transport e :
    is_RequestException e = true ->
    weather_lookup (Raise e) PyNone
| WL_http_error r :
    is_4xx_5xx r ->
    weather_lookup (Return r) PyNone
| WL_not_json r e :
    is_2xx r ->
    json_body r = Raise e ->
    is_RequestException e = true ->
    weather_lookup (Return r) PyNone
| WL_no_current r d :
    is_2xx r ->
    json_body r = Return (PyDict d) ->
    Dict.get d "current" = None ->
    weather_lookup (Return r) PyNone
| WL_no_field r d c :
    is_2xx r ->
    json_body r = Return (PyDict d) ->
    Dict.get d "current" = Some (PyDict c) ->
    Dict.get c "relative_humidity_2m" = None ->
    weather_lookup (Return r) PyNone.

(** The category a place record offers to the derivation: the first entry
    of its [types] list, or ["unknown"] when the record has no [types]. *)
Definition raw_category (record : Dict.t) : option string :=
  match Dict.get record "types" with
  | None => Some "unknown"
  | Some (PyList (PyStr s :: _)) => Some s
  | Some _ => None
  end.

(** A trace followed by a computation. *)
Definition after {A} (tr : list event) (m : M A) : M A :=
  ((tr ++ fst m)%list, snd m).

(** The run has both credentials and the resolver has found a place that
    has a name and a category; [tr] is the trace of the resolver. *)
Inductive place_resolved (lib : PyLib) (w : World) (latitude longitude : float)
    (gemini_key : string) (tr : list event) (place_name : pyval)
    (place_type : string) : Prop :=
| Place_resolved (maps_key : string) (nearest_place : pyval) :
    getenv w "GOOGLE_MAPS_API_KEY" = Some maps_key ->
    maps_key <> EmptyString ->
    getenv w "GEMINI_API_KEY" = Some gemini_key ->
    gemini_key <> EmptyString ->
    find_nearest_place lib w latitude longitude maps_key
      = (tr, Return nearest_place) ->
    truthy nearest_place = true ->
    place_name_of nearest_place = ret place_name ->
    place_type_of nearest_place = ret place_type ->
    place_resolved lib w latitude longitude gemini_key tr place_name place_type.

(** What [main] has printed and requested when it turns to the climate
    lookup, given the trace [tr] of the resolver. *)
Definition opening (lib : PyLib) (latitude longitude : float)
    (tr : list event) (place_name : pyval) (place_type : string) : list event :=
  ([ Print ("Searching for nearest infrastructure near ("
            ++ py_str lib (PyFloat latitude) ++ ", "
            ++ py_str lib (PyFloat longitude) ++ ")...") ]
   ++ tr
   ++ [ Print ("Found nearest place: " ++ py_str lib place_name
               ++ " (Type: " ++ place_type ++ ")");
        Print "Fetching current climate data..." ])%list.

(** The humidity [main] hands to the generator for a reading [h], and what
    it prints when the reading is [None]. *)
Definition humidity_passed (h : pyval) : pyval :=
  if is_None h then PyStr "not available" else h.

Definition humidity_notice (h : pyval) : list event :=
  if is_None h
  then [Print "Could not retrieve humidity data. Proceeding without it."]
  else [].

(** The exception a read of the unbound local [response] raises. *)
Definition unbound_response : exn :=
  Exn UnboundLocalError
    "cannot access local variable 'response' where it is not associated with a value".

Definition underscore : ascii := ascii_of_nat 95.

Definition no_underscore (s : string) : bool :=
  Str.all (fun c => negb (Ascii.eqb c underscore)) s.

(** The network calls of a trace, in the order they were made. *)
Definition network_calls (tr : list event) : list event :=
  filter is_network tr.

(** [s[n:]] *)
Fixpoint drop (n : nat) (s : string) : string :=
  match n, s with
  | O, _ => s
  | S _, EmptyString => EmptyString
  | S n', String _ s' => drop n' s'
  end.

(** The number of backticks a text starts with. *)
Fixpoint leading_backticks (s : string) : nat :=
  match s with
  | String c s' => if Ascii.eqb "`" c then S (leading_backticks s') else O
  | EmptyString => O
  end.

(** ** A sample run: a hospital found near the coordinates *)

Module Sample.

(** A decoder for the two replies of the scenario; like [json.loads] it
    ignores whitespace around the document. *)
Definition loads (s : string) : result pyval :=
  let doc := Str.strip s in
  if String.eqb doc "{}" then Return (PyDict [])
  else if String.eqb doc ("{" ++ quoted "is_critical" ++ ": true}")
  then Return (PyDict [("is_critical", PyBool true)])
  else Raise (Exn ValueError "Expecting value: line 1 column 1 (char 0)").

Definition lib : PyLib := {|
  json_loads := loads;
  json_dumps := fun indent v =>
    match v with PyDict [] => "{}" | _ => "{...}" end;
  py_repr := fun v => "<" ++ type_name v ++ ">"
|}.

Definition latitude : float := 35.5%float.
Definition longitude : float := (-79.25)%float.

Definition hospital : pyval :=
  PyDict [ ("name", PyStr "UNC Hospital");
           ("types", PyList [PyStr "hospital"; PyStr "health"]) ].

Definition ok (body : pyval) : result Response :=
  Return {| status_code := 200; http_error_msg := EmptyString;
            json_body := Return body |}.

Definition places_ok : result Response :=
  ok (PyDict [("status", PyStr "OK"); ("results", PyList [hospital])]).

Definition places_zero : result Response :=
  ok (PyDict [("status", PyStr "ZERO_RESULTS"); ("results", PyList [])]).

Definition weather_ok : result Response :=
  ok (PyDict [("current", PyDict [("relative_humidity_2m", PyInt 62)])]).

Definition weather_down : result Response :=
  Raise (Exn RequestException "Connection refused").

Definition reply (s : string) : result GenResponse :=
  Return {| text := Return s |}.

Definition critical_reply : string :=
  "{" ++ quoted "is_critical" ++ ": true}".

Definition world (maps_key gemini_key : option string)
    (places weather : result Response) (generated : result GenResponse)
  : World := {|
  getenv := fun name =>
    if String.eqb name "GOOGLE_MAPS_API_KEY" then maps_key
    else if String.eqb name "GEMINI_API_KEY" then gemini_key
    else None;
  http_get := fun url _ =>
    if String.eqb url places_url then places else weather;
  genai_configure := fun _ => Return tt;
  generate_content := fun _ => generated
|}.

End Sample.

(** * Properties *)

(** ** The [str] methods on concrete texts *)

Example title_words :
  Str.title "they're 3d_printer x1y" = "They'Re 3D_Printer X1Y".
Proof. reflexivity. Qed.

Example replace_leftmost : Str.replace "aa" "b" "aaaa" = "bb".
Proof. reflexivity. Qed.

Example replace_empty_pattern : Str.replace "" "-" "abc" = "-a-b-c-".
Proof. reflexivity. Qed.

Example strip_no_break_space :
  Str.strip (String (ascii_of_nat 160) "{}" ++ String (ascii_of_nat 133) "")
  = "{}".
Proof. reflexivity. Qed.

(** [str.title] beyond ASCII: [e] with acute is raised at the head of a
    word, the sharp s becomes [Ss], and the letter after a multiplication
    sign is raised. *)
Example title_latin1 :
  UStr.derive_category
    [233; 99; 111; 108; 101; 95; 109; 97; 116; 101; 114; 110; 101; 108; 108;
     101]%N
  = Some [201; 99; 111; 108; 101; 32; 77; 97; 116; 101; 114; 110; 101; 108;
          108; 101]%N
  /\ UStr.title [223; 97]%N = Some [83; 115; 97]%N
  /\ UStr.title [97; 215; 98]%N = Some [65; 215; 66]%N.
Proof. repeat split; reflexivity. Qed.

Example strip_separators :
  Str.strip (String (ascii_of_nat 31) " a " ++ String (ascii_of_nat 28) "") = "a".
Proof. reflexivity. Qed.

Example clean_fenced_object :
  clean_reply (fenced "{}") = Str.nl ++ "{}" ++ Str.nl.
Proof. reflexivity. Qed.

Example hospital_category : place_type_of Sample.hospital = ret "Hospital".
Proof. reflexivity. Qed.

(** The hospital scenario end to end: the run ends with the banner and the
    report, and returns. *)
Example hospital_run :
  let w := Sample.world (Some "maps-key") (Some "gemini-key")
             Sample.places_ok Sample.weather_ok
             (Sample.reply Sample.critical_reply) in
  snd (main Sample.lib w Sample.latitude Sample.longitude) = Return tt
  /\ last (fst (main Sample.lib w Sample.latitude Sample.longitude))
          (Print EmptyString)
     = Print (json_dumps Sample.lib 4
                (PyDict [ ("name", PyStr "UNC Hospital");
                          ("type", PyStr "Hospital");
                          ("is_critical", PyBool true) ])).
Proof. split; reflexivity. Qed.

(** ** Characters and [str] methods *)

Ltac each_ascii c := destruct c as [[] [] [] [] [] [] [] []]; reflexivity.

Lemma to_upper_idem c : Str.to_upper (Str.to_upper c) = Str.to_upper c.
Proof. each_ascii c. Qed.

Lemma to_lower_idem c : Str.to_lower (Str.to_lower c) = Str.to_lower c.
Proof. each_ascii c. Qed.

Lemma is_cased_to_upper c : Str.is_cased (Str.to_upper c) = Str.is_cased c.
Proof. each_ascii c. Qed.

Lemma is_cased_to_lower c : Str.is_cased (Str.to_lower c) = Str.is_cased c.
Proof. each_ascii c. Qed.

Lemma title_scan_idem s : forall b,
  Str.title_scan b (Str.title_scan b s) = Str.title_scan b s.
Proof.
  induction s as [|c s IH]; intros b; simpl; [reflexivity|].
  destruct b.
  - rewrite to_lower_idem, is_cased_to_lower, IH. reflexivity.
  - rewrite to_upper_idem, is_cased_to_upper, IH. reflexivity.
Qed.

Lemma underscore_to_upper c :
  Ascii.eqb (Str.to_upper c) underscore = Ascii.eqb c underscore.
Proof. each_ascii c. Qed.

Lemma underscore_to_lower c :
  Ascii.eqb (Str.to_lower c) underscore = Ascii.eqb c underscore.
Proof. each_ascii c. Qed.

Lemma title_scan_no_underscore s : forall b,
  no_underscore s = true -> no_underscore (Str.title_scan b s) = true.
Proof.
  unfold no_underscore.
  induction s as [|c s IH]; intros b H; simpl in *; [reflexivity|].
  apply andb_true_iff in H as [Hc Hs].
  rewrite (IH _ Hs), andb_true_r.
  destruct b; [rewrite underscore_to_lower | rewrite underscore_to_upper]; exact Hc.
Qed.

Lemma replace_scan_char a new c s :
  Str.replace_scan (String a EmptyString) new 0 (String c s) =
  if Ascii.eqb a c
  then new ++ Str.replace_scan (String a EmptyString) new 0 s
  else String c (Str.replace_scan (String a EmptyString) new 0 s).
Proof.
  cbn [Str.replace_scan Str.startswith String.length Nat.sub].
  rewrite andb_true_r. reflexivity.
Qed.

Lemma replace_underscore_clean s :
  no_underscore (Str.replace "_" " " s) = true.
Proof.
  unfold no_underscore, Str.replace.
  induction s as [|c s IH]; [reflexivity|].
  rewrite replace_scan_char.
  destruct (Ascii.eqb "_" c) eqn:E; cbn [Str.all append].
  - rewrite IH. reflexivity.
  - rewrite IH, andb_true_r, Ascii.eqb_sym.
    change underscore with "_"%char. rewrite E. reflexivity.
Qed.

Lemma replace_underscore_id s :
  no_underscore s = true -> Str.replace "_" " " s = s.
Proof.
  unfold no_underscore, Str.replace.
  induction s as [|c s IH]; intros H; [reflexivity|].
  cbn [Str.all] in H. apply andb_true_iff in H as [Hc Hs].
  rewrite replace_scan_char.
  rewrite Ascii.eqb_sym in Hc. change underscore with "_"%char in Hc.
  apply negb_true_iff in Hc. rewrite Hc, (IH Hs). reflexivity.
Qed.

(** ** Category derivation *)

Lemma derive_category_twice s :
  derive_category (derive_category s) = derive_category s.
Proof.
  unfold derive_category, Str.title.
  rewrite replace_underscore_id.
  - apply title_scan_idem.
  - apply title_scan_no_underscore, replace_underscore_clean.
Qed.

(** On ASCII text the loop of [str.title] on code points and the one on
    characters give the same text. *)

Lemma record_ascii c :
  Str.is_ascii c = true ->
  UStr.record (N_of_ascii c)
  = Some {| UStr.cased := Str.is_cased c;
            UStr.title_form := [N_of_ascii (Str.to_upper c)];
            UStr.lower_form := [N_of_ascii (Str.to_lower c)] |}.
Proof.
  destruct c as [[] [] [] [] [] [] [] []]; intros H;
    solve [reflexivity | discriminate H].
Qed.

Lemma underscore_code c :
  N.eqb 95 (N_of_ascii c) = Ascii.eqb "_" c.
Proof. each_ascii c. Qed.

Lemma is_ascii_to_upper c :
  Str.is_ascii c = true -> Str.is_ascii (Str.to_upper c) = true.
Proof.
  destruct c as [[] [] [] [] [] [] [] []]; intros H;
    solve [reflexivity | discriminate H].
Qed.

Lemma is_ascii_to_lower c :
  Str.is_ascii c = true -> Str.is_ascii (Str.to_lower c) = true.
Proof.
  destruct c as [[] [] [] [] [] [] [] []]; intros H;
    solve [reflexivity | discriminate H].
Qed.

Lemma title_scan_ascii s : forall b,
  Str.all Str.is_ascii s = true ->
  Str.all Str.is_ascii (Str.title_scan b s) = true.
Proof.
  induction s as [|c s IH]; intros b H; [reflexivity|].
  cbn [Str.all Str.title_scan] in *. apply andb_true_iff in H as [Hc Hs].
  rewrite (IH _ Hs), andb_true_r.
  destruct b; [now apply is_ascii_to_lower | now apply is_ascii_to_upper].
Qed.

Lemma replace_underscore_ascii s :
  Str.all Str.is_ascii s = true ->
  Str.all Str.is_ascii (Str.replace "_" " " s) = true.
Proof.
  unfold Str.replace. induction s as [|c s IH]; intros H; [reflexivity|].
  cbn [Str.all] in H. apply andb_true_iff in H as [Hc Hs].
  rewrite replace_scan_char.
  destruct (Ascii.eqb "_" c); cbn [append Str.all]; rewrite (IH Hs);
    [reflexivity | now rewrite Hc].
Qed.

Lemma replace_underscore_codes s :
  UStr.replace_scan [95%N] [32%N] 0 (UStr.codes s)
  = UStr.codes (Str.replace "_" " " s).
Proof.
  unfold Str.replace, UStr.codes.
  induction s as [|c s IH]; [reflexivity|].
  rewrite replace_scan_char.
  cbn [list_ascii_of_string map UStr.replace_scan UStr.startswith length Nat.sub].
  rewrite andb_true_r, underscore_code.
  destruct (Ascii.eqb "_" c); cbn [append list_ascii_of_string map app];
    now rewrite IH.
Qed.

Lemma title_scan_codes s : forall b,
  Str.all Str.is_ascii s = true ->
  UStr.title_scan b (UStr.codes s) = Some (UStr.codes (Str.title_scan b s)).
Proof.
  unfold UStr.codes.
  induction s as [|c s IH]; intros b H; [reflexivity|].
  cbn [Str.all] in H. apply andb_true_iff in H as [Hc Hs].
  cbn [list_ascii_of_string map UStr.title_scan Str.title_scan].
  rewrite (record_ascii c Hc). cbn [UStr.cased UStr.title_form UStr.lower_form].
  rewrite (IH _ Hs). destruct b; reflexivity.
Qed.

Lemma derive_category_codes s :
  Str.all Str.is_ascii s = true ->
  UStr.derive_category (UStr.codes s) = Some (UStr.codes (derive_category s)).
Proof.
  intros H. unfold UStr.derive_category, UStr.title, derive_category, Str.title.
  rewrite replace_underscore_codes.
  apply title_scan_codes, replace_underscore_ascii, H.
Qed.

Lemma derive_category_ascii s :
  Str.all Str.is_ascii s = true ->
  Str.all Str.is_ascii (derive_category s) = true.
Proof.
  intros H. unfold derive_category, Str.title.
  apply title_scan_ascii, replace_underscore_ascii, H.
Qed.

(** C9 (counterexample): on the text [a], U+0130, [b] the derivation is not
    idempotent: it gives [A], [i], U+0307, [b], and from that text it gives
    [A], [i], U+0307, [B], the combining dot being no cased character. *)
Lemma derive_category_not_idempotent_beyond_ascii :
  UStr.derive_category [97; 304; 98]%N = Some [65; 105; 775; 98]%N
  /\ UStr.derive_category [65; 105; 775; 98]%N = Some [65; 105; 775; 66]%N
  /\ [65; 105; 775; 66]%N <> [65; 105; 775; 98]%N.
Proof. split; [reflexivity | split; [reflexivity | discriminate]]. Qed.

(** C9 (amended): on ASCII text the derivation is [derive_category], and
    deriving a category from a derived category changes nothing; so
    "Power Station" stays "Power Station", which is also what
    "power_station" becomes. *)
Theorem derive_category_idempotent_on_ascii :
  (forall s,
     Str.all Str.is_ascii s = true ->
     UStr.derive_category (UStr.codes s) = Some (UStr.codes (derive_category s))
     /\ UStr.derive_category (UStr.codes (derive_category s))
        = Some (UStr.codes (derive_category s))
     /\ derive_category (derive_category s) = derive_category s)
  /\ derive_category "Power Station" = "Power Station"
  /\ derive_category "power_station" = "Power Station".
Proof.
  split; [|split; reflexivity].
  intros s H. split; [|split].
  - exact (derive_category_codes s H).
  - rewrite (derive_category_codes _ (derive_category_ascii s H)).
    now rewrite derive_category_twice.
  - apply derive_category_twice.
Qed.

Lemma derive_category_idempotent_on_ascii_witness :
  UStr.derive_category (UStr.codes "Fire Station")
  = Some (UStr.codes "Fire Station").
Proof.
  exact (proj1 (proj2 (proj1 derive_category_idempotent_on_ascii
                         "fire_station" eq_refl))).
Defined.

(** C2 (counterexample): a place whose category list is empty has no derived
    category: taking its first entry raises [IndexError], and "Unknown" is
    not what comes out. *)
Lemma empty_category_list_raises :
  place_type_of (PyDict [("name", PyStr "Depot"); ("types", PyList [])])
    = ([], Raise (Exn IndexError "list index out of range"))
  /\ place_type_of (PyDict [("name", PyStr "Depot"); ("types", PyList [])])
    <> ret "Unknown".
Proof. split; [reflexivity | discriminate]. Qed.

(** C2 (amended): the derived category of a place is its first listed
    category with underscores replaced by spaces and each word title-cased;
    a place record with no category list at all is derived from "unknown"
    and comes out as "Unknown". *)
Theorem place_type_of_category (record : Dict.t) :
  (forall s, raw_category record = Some s ->
     place_type_of (PyDict record) = ret (derive_category s))
  /\ (Dict.get record "types" = None ->
     place_type_of (PyDict record) = ret "Unknown").
Proof.
  unfold raw_category, place_type_of, py_get.
  split.
  - intros s H.
    destruct (Dict.get record "types") as [[ | | | | | [|[] ?] | ]|];
      try discriminate; injection H as <-; reflexivity.
  - intros ->. reflexivity.
Qed.

Lemma place_type_of_category_witness :
  place_type_of Sample.hospital = ret "Hospital"
  /\ place_type_of (PyDict [("name", PyStr "Depot")]) = ret "Unknown".
Proof.
  split.
  - apply (proj1 (place_type_of_category
                    [ ("name", PyStr "UNC Hospital");
                      ("types", PyList [PyStr "hospital"; PyStr "health"]) ])
             "hospital").
    reflexivity.
  - apply (proj2 (place_type_of_category [("name", PyStr "Depot")])).
    reflexivity.
Defined.

(** ** Location resolver *)

Lemma raise_for_status_2xx r : is_2xx r -> raise_for_status r = ret tt.
Proof.
  unfold is_2xx, raise_for_status. intros H.
  replace (400 <=? status_code r)%Z with false by (symmetry; apply Z.leb_gt; lia).
  reflexivity.
Qed.

Lemma raise_for_status_error r :
  is_4xx_5xx r ->
  raise_for_status r = lift (Raise (Exn RequestException (http_error_msg r))).
Proof.
  unfold is_4xx_5xx, raise_for_status. intros H.
  replace (400 <=? status_code r)%Z with true by (symmetry; apply Z.leb_le; lia).
  replace (status_code r <? 600)%Z with true by (symmetry; apply Z.ltb_lt; lia).
  reflexivity.
Qed.

Lemma py_eq_str_not_OK (d : Dict.t) :
  Dict.get d "status" <> Some (PyStr "OK") ->
  py_eq_str (match Dict.get d "status" with Some x => x | None => PyNone end) "OK"
    = false.
Proof.
  intros H. destruct (Dict.get d "status") as [[]|]; try reflexivity.
  unfold py_eq_str. apply String.eqb_neq. intros ->. apply H. reflexivity.
Qed.

(** On the exchanges of [place_search] the resolver does what its contract
    says: the first result on a 2xx response whose body has the status "OK"
    and a non-empty result list, [None] on a transport or HTTP failure,
    another status, or an empty result list; and whatever it returns is
    [None] or the entry at index 0 of the results of a body with status
    "OK", never another entry. *)
Lemma find_nearest_place_contract lib w lat lon api_key :
  (forall v,
     place_search (http_get w places_url (places_params lib lat lon api_key)) v ->
     snd (find_nearest_place lib w lat lon api_key) = Return v)
  /\ (forall v,
     snd (find_nearest_place lib w lat lon api_key) = Return v ->
     v = PyNone \/
     exists r d listed,
       http_get w places_url (places_params lib lat lon api_key) = Return r
       /\ json_body r = Return (PyDict d)
       /\ Dict.get d "status" = Some (PyStr "OK")
       /\ Dict.get d "results" = Some listed
       /\ py_first listed = Return v).
Proof.
  unfold find_nearest_place, requests_get. cbv zeta.
  split; intros v H.
  - inversion H as
      [r d x rest H2 Hb Hs Hr Eq | e He Eq | r He Eq | r e H2 Hb He Eq
       | r d H2 Hb Hs Eq | r d H2 Hb Hr Eq]; clear H Eq; try subst x;
      cbn [bind emit lift].
    + rewrite (raise_for_status_2xx r H2), Hb. cbn -[String.eqb].
      rewrite Hs. cbn. rewrite Hr. reflexivity.
    + cbn. rewrite He. reflexivity.
    + rewrite (raise_for_status_error r He). reflexivity.
    + rewrite (raise_for_status_2xx r H2), Hb. cbn. rewrite He. reflexivity.
    + rewrite (raise_for_status_2xx r H2), Hb. cbn -[String.eqb py_eq_str].
      rewrite (py_eq_str_not_OK d Hs). reflexivity.
    + rewrite (raise_for_status_2xx r H2), Hb. cbn -[String.eqb py_eq_str].
      destruct (py_eq_str _ "OK"); [|reflexivity].
      destruct Hr as [-> | ->]; reflexivity.
  - revert H. cbn [bind emit lift].
    destruct (http_get w places_url (places_params lib lat lon api_key))
      as [r|e].
    2:{ cbn. destruct (is_RequestException e);
          [intros [= <-]; now left | discriminate]. }
    unfold raise_for_status.
    destruct ((400 <=? status_code r) && (status_code r <? 600))%Z.
    { cbn. intros [= <-]. now left. }
    cbn [bind ret lift].
    destruct (json_body r) as [body|e] eqn:Hb.
    2:{ cbn. destruct (is_RequestException e);
          [intros [= <-]; now left | discriminate]. }
    destruct body as [ | | | | | | d]; try (cbn; discriminate).
    cbn -[String.eqb py_eq_str].
    destruct (Dict.get d "status") as [status|] eqn:Hs;
      [|cbn; intros [= <-]; now left].
    cbn -[String.eqb py_eq_str].
    destruct (py_eq_str status "OK") eqn:Hok;
      [|cbn; intros [= <-]; now left].
    destruct status; try discriminate Hok.
    apply String.eqb_eq in Hok. subst s.
    cbn -[String.eqb].
    destruct (Dict.get d "results") as [listed|] eqn:Hr;
      [|cbn; intros [= <-]; now left].
    destruct (truthy listed); [|cbn; intros [= <-]; now left].
    cbn -[String.eqb].
    destruct (py_first listed) as [x|e] eqn:Hfirst.
    2:{ cbn. destruct (is_RequestException e);
          [intros [= <-]; now left | discriminate]. }
    cbn. intros [= <-]. right. exists r, d, listed. auto.
Qed.

Lemma find_nearest_place_contract_witness :
  snd (find_nearest_place Sample.lib
         (Sample.world (Some "maps-key") (Some "gemini-key") Sample.places_ok
            Sample.weather_ok (Sample.reply Sample.critical_reply))
         Sample.latitude Sample.longitude "maps-key") = Return Sample.hospital
  /\ snd (find_nearest_place Sample.lib
         (Sample.world (Some "maps-key") (Some "gemini-key") Sample.places_zero
            Sample.weather_ok (Sample.reply Sample.critical_reply))
         Sample.latitude Sample.longitude "maps-key") = Return PyNone.
Proof.
  split; apply (proj1 (find_nearest_place_contract _ _ _ _ _)).
  - eapply PS_found with (rest := []);
      [unfold is_2xx; simpl; lia | reflexivity | reflexivity | reflexivity].
  - eapply PS_status;
      [unfold is_2xx; simpl; lia | reflexivity | simpl; discriminate].
Defined.

Lemma raise_for_status_passes r :
  ~ is_4xx_5xx r -> raise_for_status r = ret tt.
Proof.
  unfold is_4xx_5xx, raise_for_status. intros H.
  destruct (400 <=? status_code r)%Z eqn:E1; [|reflexivity].
  destruct (status_code r <? 600)%Z eqn:E2; [|reflexivity].
  exfalso. apply H. apply Z.leb_le in E1. apply Z.ltb_lt in E2. lia.
Qed.

(** C1 (divergence): outside those exchanges the resolver does not return
    [None].  On a response whose status [raise_for_status] lets through, a
    body that is JSON but no object makes [results.get] raise
    [AttributeError], which the [except] clause does not catch; and with the
    status "OK" any truthy [results], a list or not, is subscripted with
    [0]: a text gives its first character, an object raises [KeyError], a
    number or [true] raises [TypeError]. *)
Theorem find_nearest_place_leaves_contract lib w lat lon api_key r body :
  http_get w places_url (places_params lib lat lon api_key) = Return r ->
  ~ is_4xx_5xx r ->
  json_body r = Return body ->
  (is_dict body = false ->
   find_nearest_place lib w lat lon api_key
   = ([HttpGet places_url (places_params lib lat lon api_key)],
      Raise (no_attribute body "get")))
  /\ (forall d listed,
       body = PyDict d ->
       Dict.get d "status" = Some (PyStr "OK") ->
       Dict.get d "results" = Some listed ->
       truthy listed = true ->
       find_nearest_place lib w lat lon api_key
       = ([HttpGet places_url (places_params lib lat lon api_key)],
          py_first listed)).
Proof.
  intros Hget Hok Hb. unfold find_nearest_place, requests_get. cbv zeta.
  cbn [bind emit lift]. rewrite Hget, (raise_for_status_passes r Hok), Hb.
  split.
  - intros Hnd. destruct body; try discriminate Hnd; reflexivity.
  - intros d listed -> Hs Hr Ht.
    cbn [bind lift ret py_get py_getitem fst snd]. rewrite Hs.
    cbn [bind lift ret py_get py_getitem py_eq_str String.eqb Ascii.eqb
         Bool.eqb fst snd].
    rewrite Hr. cbn [bind lift ret fst snd]. rewrite Ht.
    cbn [app].
    destruct listed as [ | [] | n | f | [|c s] | [|x l] | [|kv d'] ];
      try discriminate Ht; reflexivity.
Qed.

Lemma find_nearest_place_leaves_contract_witness :
  snd (find_nearest_place Sample.lib
         (Sample.world (Some "maps-key") (Some "gemini-key")
            (Sample.ok (PyList [])) Sample.weather_ok
            (Sample.reply Sample.critical_reply))
         Sample.latitude Sample.longitude "maps-key")
    = Raise (Exn AttributeError "'list' object has no attribute 'get'")
  /\ snd (find_nearest_place Sample.lib
         (Sample.world (Some "maps-key") (Some "gemini-key")
            (Sample.ok (PyDict [("status", PyStr "OK");
                                ("results", PyStr "abc")]))
            Sample.weather_ok (Sample.reply Sample.critical_reply))
         Sample.latitude Sample.longitude "maps-key")
    = Return (PyStr "a").
Proof.
  split.
  - refine (f_equal snd
      (proj1 (find_nearest_place_leaves_contract Sample.lib
                (Sample.world (Some "maps-key") (Some "gemini-key")
                   (Sample.ok (PyList [])) Sample.weather_ok
                   (Sample.reply Sample.critical_reply))
                Sample.latitude Sample.longitude "maps-key"
                {| status_code := 200; http_error_msg := EmptyString;
                   json_body := Return (PyList []) |} (PyList []) _ _ _) _)).
    + reflexivity.
    + unfold is_4xx_5xx. simpl. lia.
    + reflexivity.
    + reflexivity.
  - refine (f_equal snd
      (proj2 (find_nearest_place_leaves_contract Sample.lib
                (Sample.world (Some "maps-key") (Some "gemini-key")
                   (Sample.ok (PyDict [("status", PyStr "OK");
                                       ("results", PyStr "abc")]))
                   Sample.weather_ok (Sample.reply Sample.critical_reply))
                Sample.latitude Sample.longitude "maps-key"
                {| status_code := 200; http_error_msg := EmptyString;
                   json_body :=
                     Return (PyDict [("status", PyStr "OK");
                                     ("results", PyStr "abc")]) |}
                (PyDict [("status", PyStr "OK"); ("results", PyStr "abc")])
                _ _ _)
         [("status", PyStr "OK"); ("results", PyStr "abc")]
         (PyStr "abc") _ _ _ _)).
    + reflexivity.
    + unfold is_4xx_5xx. simpl. lia.
    + reflexivity.
    + reflexivity.
    + reflexivity.
    + reflexivity.
    + reflexivity.
Defined.

(** ** Climate lookup *)

(** On the exchanges of [weather_lookup] the lookup returns exactly the
    value at [current.relative_humidity_2m] of the response body, or [None]
    when the request fails or a key of the path is absent from its object;
    and whatever it returns is [None] or the value at that path, never a
    default number. *)
Lemma get_current_humidity_contract lib w lat lon :
  (forall v,
     weather_lookup (http_get w (weather_url lib lat lon) []) v ->
     snd (get_current_humidity lib w lat lon) = Return v)
  /\ (forall v,
     snd (get_current_humidity lib w lat lon) = Return v ->
     v = PyNone \/
     exists r body,
       http_get w (weather_url lib lat lon) [] = Return r
       /\ json_body r = Return body
       /\ value_at body ["current"; "relative_humidity_2m"] = Some v).
Proof.
  unfold get_current_humidity, requests_get. cbv zeta.
  split; intros v H.
  - inversion H as
      [r d c x H2 Hb Hc Hv Eq | e He Eq | r He Eq | r e H2 Hb He Eq
       | r d H2 Hb Hc Eq | r d c H2 Hb Hc Hv Eq]; clear H Eq; try subst x;
      cbn [bind emit lift].
    + rewrite (raise_for_status_2xx r H2), Hb. cbn -[String.eqb].
      rewrite Hc. cbn -[String.eqb]. rewrite Hv. reflexivity.
    + cbn. rewrite He. reflexivity.
    + rewrite (raise_for_status_error r He). reflexivity.
    + rewrite (raise_for_status_2xx r H2), Hb. cbn. rewrite He. reflexivity.
    + rewrite (raise_for_status_2xx r H2), Hb. cbn -[String.eqb].
      rewrite Hc. reflexivity.
    + rewrite (raise_for_status_2xx r H2), Hb. cbn -[String.eqb].
      rewrite Hc. cbn -[String.eqb]. rewrite Hv. reflexivity.
  - revert H. cbn [bind emit lift].
    destruct (http_get w (weather_url lib lat lon) []) as [r|e].
    2:{ cbn. destruct (is_RequestException e); [intros [= <-]; now left|].
        destruct (is_KeyError e); [intros [= <-]; now left | discriminate]. }
    unfold raise_for_status.
    destruct ((400 <=? status_code r) && (status_code r <? 600))%Z.
    { cbn. intros [= <-]. now left. }
    cbn [bind ret lift].
    destruct (json_body r) as [body|e] eqn:Hb.
    2:{ cbn. destruct (is_RequestException e); [intros [= <-]; now left|].
        destruct (is_KeyError e); [intros [= <-]; now left | discriminate]. }
    destruct body as [ | | | | | | d]; try (cbn; discriminate).
    cbn -[String.eqb].
    destruct (Dict.get d "current") as [current|] eqn:Hc.
    2:{ cbn. intros [= <-]. now left. }
    destruct current as [ | | | | | | c]; try (cbn; discriminate).
    cbn -[String.eqb].
    destruct (Dict.get c "relative_humidity_2m") as [x|] eqn:Hv.
    2:{ cbn. intros [= <-]. now left. }
    cbn. intros [= <-]. right. exists r, (PyDict d).
    split; [reflexivity|]. split; [exact Hb|].
    cbn -[String.eqb]. rewrite Hc. cbn -[String.eqb]. rewrite Hv. reflexivity.
Qed.

Lemma get_current_humidity_contract_witness :
  snd (get_current_humidity Sample.lib
         (Sample.world (Some "maps-key") (Some "gemini-key") Sample.places_ok
            Sample.weather_ok (Sample.reply Sample.critical_reply))
         Sample.latitude Sample.longitude) = Return (PyInt 62)
  /\ snd (get_current_humidity Sample.lib
         (Sample.world (Some "maps-key") (Some "gemini-key") Sample.places_ok
            Sample.weather_down (Sample.reply Sample.critical_reply))
         Sample.latitude Sample.longitude) = Return PyNone.
Proof.
  split.
  - apply (proj1 (get_current_humidity_contract _ _ _ _)).
    eapply WL_found;
      [unfold is_2xx; simpl; lia | reflexivity | reflexivity | reflexivity].
  - apply (proj1 (get_current_humidity_contract _ _ _ _)).
    apply WL_transport. reflexivity.
Defined.

(** C4 (divergence): when the body has a [current] that is not an object,
    so that nothing is at [current.relative_humidity_2m], subscripting it
    raises a [TypeError] that neither [except] clause catches: the lookup
    raises to its caller instead of returning [None]. *)
Theorem get_current_humidity_raises_on_blocked_path lib w lat lon r d current :
  http_get w (weather_url lib lat lon) [] = Return r ->
  is_2xx r ->
  json_body r = Return (PyDict d) ->
  Dict.get d "current" = Some current ->
  is_dict current = false ->
  value_at (PyDict d) ["current"; "relative_humidity_2m"] = None
  /\ exists e,
       exn_class_of e = TypeError
       /\ get_current_humidity lib w lat lon
          = ([HttpGet (weather_url lib lat lon) []], Raise e).
Proof.
  intros Hget H2 Hb Hc Hnd. split.
  - cbn -[String.eqb]. rewrite Hc. destruct current; try reflexivity.
    discriminate Hnd.
  - unfold get_current_humidity, requests_get. cbv zeta.
    cbn [bind emit lift]. rewrite Hget.
    rewrite (raise_for_status_2xx r H2), Hb. cbn -[String.eqb].
    rewrite Hc.
    destruct current; try discriminate Hnd; cbn;
      eexists; (split; [|reflexivity]); reflexivity.
Qed.

Lemma get_current_humidity_raises_on_blocked_path_witness :
  exists e,
    exn_class_of e = TypeError
    /\ get_current_humidity Sample.lib
         (Sample.world (Some "maps-key") (Some "gemini-key") Sample.places_ok
            (Sample.ok (PyDict [("current", PyNone)]))
            (Sample.reply Sample.critical_reply))
         Sample.latitude Sample.longitude
       = ([HttpGet (weather_url Sample.lib Sample.latitude Sample.longitude) []],
          Raise e).
Proof.
  refine (proj2 (get_current_humidity_raises_on_blocked_path Sample.lib
                   (Sample.world (Some "maps-key") (Some "gemini-key")
                      Sample.places_ok
                      (Sample.ok (PyDict [("current", PyNone)]))
                      (Sample.reply Sample.critical_reply))
                   Sample.latitude Sample.longitude
                   {| status_code := 200; http_error_msg := EmptyString;
                      json_body := Return (PyDict [("current", PyNone)]) |}
                   [("current", PyNone)] PyNone _ _ _ _ _));
    first [reflexivity | unfold is_2xx; simpl; lia].
Defined.

(** ** Searching, stripping and replacing *)

Lemma append_assoc (x y z : string) : (x ++ y) ++ z = x ++ (y ++ z).
Proof. induction x as [|c x IH]; simpl; [reflexivity | now rewrite IH]. Qed.

Lemma startswith_app p s tail :
  Str.startswith p s = true -> Str.startswith p (s ++ tail) = true.
Proof.
  revert s. induction p as [|a p IH]; intros [|b s]; simpl; try easy.
  intros H. apply andb_true_iff in H as [-> H]. simpl. now apply IH.
Qed.

Lemma contains_app p s tail :
  Str.contains p s = true -> Str.contains p (s ++ tail) = true.
Proof.
  induction s as [|c s IH]; cbn [Str.contains append]; intros H.
  - rewrite orb_false_r in H. destruct p; [|discriminate].
    destruct tail; reflexivity.
  - apply orb_true_iff in H as [H|H].
    + apply (startswith_app p (String c s) tail) in H.
      cbn [append] in H. rewrite H. reflexivity.
    + rewrite (IH H). apply orb_true_r.
Qed.

Lemma contains_tail p c s :
  Str.contains p (String c s) = false -> Str.contains p s = false.
Proof. cbn [Str.contains]. intros H. now apply orb_false_iff in H. Qed.

Lemma contains_head p s :
  Str.contains p s = false -> Str.startswith p s = false.
Proof. destruct s; cbn [Str.contains]; intros H; now apply orb_false_iff in H. Qed.

Lemma startswith_longer p q s :
  Str.startswith (p ++ q) s = true -> Str.startswith p s = true.
Proof.
  revert s. induction p as [|a p IH]; intros s; [reflexivity|].
  destruct s as [|b s]; cbn [append Str.startswith]; [discriminate|].
  intros H. apply andb_true_iff in H as [-> H]. simpl. now apply IH.
Qed.

Lemma contains_longer p q s :
  Str.contains p s = false -> Str.contains (p ++ q) s = false.
Proof.
  induction s as [|c s IH]; cbn [Str.contains]; intros H;
    apply orb_false_iff in H as [H1 H2]; apply orb_false_iff; split; auto;
    destruct (Str.startswith (p ++ q) _) eqn:E; auto;
    apply startswith_longer in E; congruence.
Qed.

(** A match of [p] that starts inside [s] cannot run over a character [d]
    that [p] does not have. *)
Lemma startswith_across p d : forall s tail,
  Str.all (fun c => negb (Ascii.eqb c d)) p = true ->
  Str.startswith p (s ++ String d tail) = true ->
  Str.startswith p s = true.
Proof.
  induction p as [|a p IH]; intros s tail Hp H; [reflexivity|].
  cbn [Str.all] in Hp. apply andb_true_iff in Hp as [Ha Hp].
  destruct s as [|b s]; cbn [append Str.startswith] in *.
  - apply andb_true_iff in H as [H _]. rewrite H in Ha. discriminate.
  - apply andb_true_iff in H as [-> H]. simpl. now apply (IH s tail).
Qed.

Lemma replace_scan_app old new d tail : forall s,
  Str.all (fun c => negb (Ascii.eqb c d)) old = true ->
  Str.contains old s = false ->
  Str.replace_scan old new 0 (s ++ String d tail) =
  s ++ Str.replace_scan old new 0 (String d tail).
Proof.
  intros s Hold. induction s as [|c s IH]; intros H; [reflexivity|].
  cbn [append]. cbn [Str.replace_scan].
  destruct (Str.startswith old (String c (s ++ String d tail))) eqn:E.
  - apply (startswith_across old d (String c s) tail Hold) in E.
    apply contains_head in H. congruence.
  - rewrite (IH (contains_tail _ _ _ H)). reflexivity.
Qed.

Lemma replace_scan_clean old new : forall s,
  Str.contains old s = false -> Str.replace_scan old new 0 s = s.
Proof.
  induction s as [|c s IH]; intros H; [reflexivity|].
  cbn [Str.replace_scan]. rewrite (contains_head _ _ H).
  rewrite (IH (contains_tail _ _ _ H)). reflexivity.
Qed.

Lemma contains_lstrip p s :
  Str.contains p s = false -> Str.contains p (Str.lstrip s) = false.
Proof.
  induction s as [|c s IH]; intros H; [exact H|].
  cbn [Str.lstrip]. destruct (Str.is_space c); [|exact H].
  apply IH. exact (contains_tail _ _ _ H).
Qed.

Lemma rstrip_prefix s : exists tail, s = Str.rstrip s ++ tail.
Proof.
  induction s as [|c s [tail IH]]; [now exists EmptyString|].
  cbn [Str.rstrip]. destruct (Str.rstrip s) as [|c' r].
  - destruct (Str.is_space c).
    + now exists (String c s).
    + exists s. reflexivity.
  - exists tail. cbn [append] in *. now rewrite <- IH.
Qed.

Lemma contains_rstrip p s :
  Str.contains p s = false -> Str.contains p (Str.rstrip s) = false.
Proof.
  intros H. destruct (Str.contains p (Str.rstrip s)) eqn:E; [|reflexivity].
  destruct (rstrip_prefix s) as [tail Hs].
  apply (contains_app p _ tail) in E. rewrite <- Hs in E. congruence.
Qed.

Lemma contains_strip p s :
  Str.contains p s = false -> Str.contains p (Str.strip s) = false.
Proof. intros H. apply contains_rstrip, contains_lstrip, H. Qed.

Lemma rstrip_app_kept x c y :
  Str.rstrip (String c y) = String c y ->
  Str.rstrip (x ++ String c y) = x ++ String c y.
Proof.
  intros Hy. induction x as [|a x IH]; [exact Hy|].
  cbn [append Str.rstrip]. rewrite IH.
  destruct x; reflexivity.
Qed.

(** ** Reply cleaning *)

Lemma clean_reply_fenced t :
  Str.contains "```" t = false ->
  clean_reply (fenced t) = Str.nl ++ t ++ Str.nl.
Proof.
  intros H. unfold clean_reply, fenced.
  assert (Hs : Str.strip ("```json" ++ Str.nl ++ t ++ Str.nl ++ "```")
               = "```json" ++ Str.nl ++ t ++ Str.nl ++ "```").
  { unfold Str.strip.
    replace ("```json" ++ Str.nl ++ t ++ Str.nl ++ "```")
      with (("```json" ++ Str.nl ++ t ++ Str.nl ++ "``") ++ "`")
      by (rewrite !append_assoc; reflexivity).
    change (Str.lstrip (("```json" ++ Str.nl ++ t ++ Str.nl ++ "``") ++ "`"))
      with (("```json" ++ Str.nl ++ t ++ Str.nl ++ "``") ++ "`").
    apply rstrip_app_kept. reflexivity. }
  rewrite Hs.
  assert (H1 : Str.replace "```json" EmptyString
                 ("```json" ++ Str.nl ++ t ++ Str.nl ++ "```")
               = Str.nl ++ t ++ Str.nl ++ "```").
  { change (Str.replace "```json" EmptyString
              ("```json" ++ Str.nl ++ t ++ Str.nl ++ "```"))
      with (Str.nl ++ Str.replace_scan "```json" EmptyString 0
                        (t ++ String (ascii_of_nat 10) "```")).
    rewrite replace_scan_app;
      [reflexivity | reflexivity | exact (contains_longer "```" "json" t H)]. }
  rewrite H1.
  change (Str.replace "```" EmptyString (Str.nl ++ t ++ Str.nl ++ "```"))
    with (Str.nl ++ Str.replace_scan "```" EmptyString 0
                      (t ++ String (ascii_of_nat 10) "```")).
  rewrite replace_scan_app; [reflexivity | reflexivity | exact H].
Qed.

Lemma clean_reply_bare t :
  Str.contains "```" t = false -> clean_reply t = Str.strip t.
Proof.
  intros H. unfold clean_reply, Str.replace.
  pose proof (contains_strip _ _ H) as Hs.
  rewrite (replace_scan_clean "```json" _ _ (contains_longer "```" "json" _ Hs)).
  apply replace_scan_clean, Hs.
Qed.

(** C7: for a JSON text [t] without fence markers, the reply
    ["```json\n" + t + "\n```"] and the bare reply [t] are cleaned and parsed
    to the same value, the one [t] denotes. *)
Theorem fenced_reply_parses_like_bare lib t v :
  loads_skips_whitespace (json_loads lib) ->
  loads_after_strip (json_loads lib) ->
  Str.contains "```" t = false ->
  json_loads lib t = Return v ->
  parse_reply lib (fenced t) = Return v /\ parse_reply lib t = Return v.
Proof.
  intros Hpad Hstrip Hfree Ht. unfold parse_reply. split.
  - rewrite (clean_reply_fenced t Hfree).
    apply Hpad; [reflexivity | reflexivity | exact Ht].
  - rewrite (clean_reply_bare t Hfree). apply Hstrip, Ht.
Qed.

(** The sample decoder has the two properties assumed of [json.loads]. *)

Lemma json_ws_is_space c : Str.is_json_ws c = true -> Str.is_space c = true.
Proof. destruct c as [[] [] [] [] [] [] [] []]; intros H; solve [reflexivity | discriminate H]. Qed.

Lemma all_json_ws_space s :
  Str.all Str.is_json_ws s = true -> Str.all Str.is_space s = true.
Proof.
  induction s as [|c s IH]; cbn [Str.all]; [reflexivity|].
  intros H. apply andb_true_iff in H as [Hc Hs].
  now rewrite (json_ws_is_space c Hc), (IH Hs).
Qed.

Lemma lstrip_all_space s : Str.all Str.is_space s = true -> Str.lstrip s = EmptyString.
Proof.
  induction s as [|c s IH]; cbn [Str.all Str.lstrip]; [reflexivity|].
  intros H. apply andb_true_iff in H as [-> Hs]. now apply IH.
Qed.

Lemma rstrip_all_space s : Str.all Str.is_space s = true -> Str.rstrip s = EmptyString.
Proof.
  induction s as [|c s IH]; cbn [Str.all Str.rstrip]; [reflexivity|].
  intros H. apply andb_true_iff in H as [-> Hs]. now rewrite (IH Hs).
Qed.

Lemma lstrip_app_space a s :
  Str.all Str.is_space a = true -> Str.lstrip (a ++ s) = Str.lstrip s.
Proof.
  induction a as [|c a IH]; cbn [Str.all append Str.lstrip]; [reflexivity|].
  intros H. apply andb_true_iff in H as [-> Ha]. now apply IH.
Qed.

Lemma rstrip_app_space s b :
  Str.all Str.is_space b = true -> Str.rstrip (s ++ b) = Str.rstrip s.
Proof.
  intros Hb. induction s as [|c s IH]; cbn [append Str.rstrip].
  - now apply rstrip_all_space.
  - now rewrite IH.
Qed.

Lemma lstrip_app s b :
  Str.lstrip (s ++ b) =
  if Str.all Str.is_space s then Str.lstrip b else Str.lstrip s ++ b.
Proof.
  induction s as [|c s IH]; cbn [append Str.lstrip Str.all]; [reflexivity|].
  destruct (Str.is_space c); [exact IH | reflexivity].
Qed.

Lemma strip_padded a s b :
  Str.all Str.is_space a = true -> Str.all Str.is_space b = true ->
  Str.strip (a ++ s ++ b) = Str.strip s.
Proof.
  intros Ha Hb. unfold Str.strip.
  rewrite (lstrip_app_space a _ Ha), lstrip_app.
  destruct (Str.all Str.is_space s) eqn:Hs.
  - now rewrite (lstrip_all_space b Hb), (lstrip_all_space s Hs).
  - now apply rstrip_app_space.
Qed.

Lemma rstrip_idem s : Str.rstrip (Str.rstrip s) = Str.rstrip s.
Proof.
  induction s as [|c s IH]; [reflexivity|].
  cbn [Str.rstrip]. destruct (Str.rstrip s) as [|c' r] eqn:E.
  - destruct (Str.is_space c) eqn:Hc; [reflexivity|].
    cbn [Str.rstrip]. now rewrite Hc.
  - change (Str.rstrip (String c (String c' r)))
      with (match Str.rstrip (String c' r) with
            | EmptyString =>
                if Str.is_space c then EmptyString else String c EmptyString
            | r0 => String c r0
            end).
    now rewrite IH.
Qed.

Lemma lstrip_rstrip_lstrip s :
  Str.lstrip (Str.rstrip (Str.lstrip s)) = Str.rstrip (Str.lstrip s).
Proof.
  induction s as [|c s IH]; [reflexivity|].
  cbn [Str.lstrip]. destruct (Str.is_space c) eqn:Hc; [exact IH|].
  cbn [Str.rstrip]. destruct (Str.rstrip s); rewrite ?Hc; cbn [Str.lstrip];
    now rewrite Hc.
Qed.

Lemma strip_idem s : Str.strip (Str.strip s) = Str.strip s.
Proof. unfold Str.strip. now rewrite lstrip_rstrip_lstrip, rstrip_idem. Qed.

Lemma sample_loads_skips_whitespace : loads_skips_whitespace Sample.loads.
Proof.
  intros a s b v Ha Hb. unfold Sample.loads.
  now rewrite (strip_padded a s b (all_json_ws_space a Ha) (all_json_ws_space b Hb)).
Qed.

Lemma sample_loads_after_strip : loads_after_strip Sample.loads.
Proof. intros s v. unfold Sample.loads. now rewrite strip_idem. Qed.

Lemma fenced_reply_parses_like_bare_witness :
  parse_reply Sample.lib (fenced Sample.critical_reply)
    = Return (PyDict [("is_critical", PyBool true)])
  /\ parse_reply Sample.lib Sample.critical_reply
    = Return (PyDict [("is_critical", PyBool true)]).
Proof.
  apply (fenced_reply_parses_like_bare Sample.lib Sample.critical_reply).
  - exact sample_loads_skips_whitespace.
  - exact sample_loads_after_strip.
  - reflexivity.
  - reflexivity.
Defined.

(** ** Narrative generator *)

(** C3 (divergence): when [generate_content] raises, the handler prints the
    error and then reads [response.text] of a [response] that was never
    bound: the function raises [UnboundLocalError] to its caller instead of
    returning [None]. *)
Theorem generate_raises_when_call_fails lib w place_name place_type humidity
    api_key e :
  api_key <> EmptyString ->
  genai_configure w api_key = Return tt ->
  generate_content w (prompt_of lib place_name place_type humidity) = Raise e ->
  is_Exception e = true ->
  generate_infrastructure_analysis lib w place_name place_type humidity api_key
  = ([ GenaiConfigure api_key;
       GenerateContent (prompt_of lib place_name place_type humidity);
       Print ("An error occurred during Gemini API call: " ++ exn_msg e) ],
     Raise unbound_response).
Proof.
  intros Hkey Hconf Hgen He. unfold generate_infrastructure_analysis.
  apply String.eqb_neq in Hkey. rewrite Hkey.
  cbv zeta. unfold try_assign_except, try_except, bind, emit, lift, ret, print.
  rewrite Hconf. cbn [negb app]. rewrite Hgen. cbn [app]. rewrite He.
  reflexivity.
Qed.

Lemma generate_raises_when_call_fails_witness :
  snd (generate_infrastructure_analysis Sample.lib
         (Sample.world (Some "maps-key") (Some "gemini-key") Sample.places_ok
            Sample.weather_ok
            (Raise (Exn OtherException "403 API key not valid")))
         (PyStr "UNC Hospital") (PyStr "Hospital") (PyInt 62) "gemini-key")
  = Raise unbound_response.
Proof.
  rewrite (generate_raises_when_call_fails Sample.lib _ _ _ _ "gemini-key"
             (Exn OtherException "403 API key not valid"));
    [reflexivity | discriminate | reflexivity | reflexivity | reflexivity].
Defined.

(** When the reply is not JSON the generator does return [None], after
    printing the error and the raw reply. *)
Lemma generate_returns_None_on_bad_reply lib w place_name place_type humidity
    api_key response reply e :
  api_key <> EmptyString ->
  genai_configure w api_key = Return tt ->
  generate_content w (prompt_of lib place_name place_type humidity)
    = Return response ->
  text response = Return reply ->
  json_loads lib (clean_reply reply) = Raise e ->
  is_Exception e = true ->
  generate_infrastructure_analysis lib w place_name place_type humidity api_key
  = ([ GenaiConfigure api_key;
       GenerateContent (prompt_of lib place_name place_type humidity);
       Print ("An error occurred during Gemini API call: " ++ exn_msg e);
       Print ("Received text: " ++ reply) ],
     Return PyNone).
Proof.
  intros Hkey Hconf Hgen Htext Hloads He. unfold generate_infrastructure_analysis.
  apply String.eqb_neq in Hkey. rewrite Hkey.
  cbv zeta. unfold try_assign_except, try_except, bind, emit, lift, ret, print,
    local_var.
  rewrite Hconf. cbn [negb app]. rewrite Hgen. cbn [app].
  rewrite Htext, Hloads, He. unfold lift, ret. rewrite Htext. reflexivity.
Qed.

(** ** Orchestrator *)

(** C8: when either credential is absent from the environment, [main] prints
    one error line and returns; its trace has no network call. *)
Theorem main_stops_without_credentials lib w latitude longitude :
  getenv w "GOOGLE_MAPS_API_KEY" = None \/ getenv w "GEMINI_API_KEY" = None ->
  (exists line,
     Str.startswith "Error: " line = true
     /\ main lib w latitude longitude = ([Print line], Return tt))
  /\ existsb is_network (fst (main lib w latitude longitude)) = false.
Proof.
  intros H. unfold main. cbv zeta.
  destruct (env_falsy (getenv w "GOOGLE_MAPS_API_KEY")) eqn:Hmaps.
  - split; [eexists; split; [|reflexivity]|]; reflexivity.
  - destruct H as [H|H].
    + rewrite H in Hmaps. discriminate.
    + rewrite H. cbn [env_falsy].
      split; [eexists; split; [|reflexivity]|]; reflexivity.
Qed.

Lemma main_stops_without_credentials_witness :
  existsb is_network
    (fst (main Sample.lib
            (Sample.world None (Some "gemini-key") Sample.places_ok
               Sample.weather_ok (Sample.reply Sample.critical_reply))
            Sample.latitude Sample.longitude)) = false.
Proof.
  apply (main_stops_without_credentials Sample.lib).
  left. reflexivity.
Defined.

Lemma after_app {A} (t1 t2 : list event) (m : M A) :
  after t1 (after t2 m) = after (t1 ++ t2) m.
Proof. unfold after. cbn [fst snd]. now rewrite app_assoc. Qed.

Lemma bind_after {A B} (tr : list event) (a : A) (k : A -> M B) :
  bind (tr, Return a) k = after tr (k a).
Proof. unfold bind, after. now destruct (k a). Qed.

Lemma after_nil {A} (m : M A) : after [] m = m.
Proof. now destruct m. Qed.

(** Once the place is resolved and the climate lookup has returned, [main]
    calls the generator and hands its result to [final_report]. *)
Lemma main_reaches_generator lib w latitude longitude gemini_key tr
    place_name place_type t2 h :
  place_resolved lib w latitude longitude gemini_key tr place_name place_type ->
  get_current_humidity lib w latitude longitude = (t2, Return h) ->
  main lib w latitude longitude =
  after (opening lib latitude longitude tr place_name place_type
         ++ t2 ++ humidity_notice h ++ [Print "Generating AI analysis..."])
    (ai_analysis <-
       generate_infrastructure_analysis lib w place_name (PyStr place_type)
         (humidity_passed h) gemini_key ;;
     final_report lib place_name place_type ai_analysis).
Proof.
  intros [mk place Hmk Hmk' Hgk Hgk' Hfind Htruthy Hname Htype] Hhum.
  unfold main. cbv zeta. rewrite Hmk, Hgk. cbn [env_falsy env_str].
  apply String.eqb_neq in Hmk', Hgk'. rewrite Hmk', Hgk'.
  unfold after, opening, humidity_passed, humidity_notice.
  cbn [bind print emit ret fst snd]. rewrite Hfind.
  cbn [bind print emit ret fst snd]. rewrite Htruthy, Hname, Htype.
  cbn [bind print emit ret fst snd negb]. rewrite Hhum.
  cbn [bind print emit ret fst snd].
  destruct (is_None h); cbn [bind print emit ret fst snd];
    destruct (generate_infrastructure_analysis _ _ _ _ _ _) as [t3 [ai|e]];
    cbn [bind fst snd]; try destruct (final_report _ _ _ _) as [t4 r];
    cbn [fst snd app]; f_equal; rewrite <- ?app_assoc; cbn [app];
    rewrite <- ?app_assoc; reflexivity.
Qed.

(** *** Degraded humidity *)

Lemma contains_here p s : Str.startswith p s = true -> Str.contains p s = true.
Proof. intros H. destruct s; cbn [Str.contains]; now rewrite H. Qed.

Lemma contains_cons p c s :
  Str.contains p s = true -> Str.contains p (String c s) = true.
Proof. intros H. cbn [Str.contains]. rewrite H. apply orb_true_r. Qed.

Lemma contains_app_r p x y :
  Str.contains p y = true -> Str.contains p (x ++ y) = true.
Proof.
  intros H. induction x as [|c x IH]; [exact H|].
  cbn [append]. now apply contains_cons.
Qed.

(** Walk down a text to the place where the pattern starts. *)
Ltac find_substring :=
  repeat first
    [ solve [apply contains_here; reflexivity]
    | apply contains_cons
    | apply contains_app_r ].

Lemma startswith_self p rest : Str.startswith p (p ++ rest) = true.
Proof.
  induction p as [|c p IH]; [reflexivity|].
  cbn [append Str.startswith]. now rewrite Ascii.eqb_refl.
Qed.

Lemma prompt_shows_humidity lib place_name place_type s :
  Str.contains ("- Current Local Humidity: " ++ s ++ "%")
    (prompt_of lib place_name place_type (PyStr s)) = true.
Proof.
  unfold prompt_of, quoted. cbn [Str.join_lines py_str].
  unfold Str.dquote, Str.nl. cbn [append].
  do 2 (repeat apply contains_cons; apply contains_app_r).
  do 5 apply contains_cons. apply contains_here.
  cbn [Str.startswith Ascii.eqb Bool.eqb andb].
  apply startswith_self.
Qed.

Lemma startswith_split p : forall s,
  Str.startswith p s = true -> exists tail, s = p ++ tail.
Proof.
  induction p as [|a p IH]; intros s H; [now exists s|].
  destruct s as [|b s]; [discriminate|].
  cbn [Str.startswith] in H. apply andb_true_iff in H as [Hab H].
  apply Ascii.eqb_eq in Hab. subst b.
  destruct (IH s H) as [tail ->]. now exists tail.
Qed.

Lemma contains_trans q p s :
  Str.contains q p = true -> Str.contains p s = true -> Str.contains q s = true.
Proof.
  intros Hq. induction s as [|c s IH]; intros H; cbn [Str.contains] in H.
  - rewrite orb_false_r in H. destruct (startswith_split p _ H) as [tail E].
    destruct p; [exact Hq | discriminate E].
  - apply orb_true_iff in H as [H|H].
    + destruct (startswith_split p _ H) as [tail E]. rewrite E.
      now apply contains_app.
    + apply contains_cons. now apply IH.
Qed.

Lemma generator_calls_model lib w place_name place_type humidity api_key :
  api_key <> EmptyString ->
  genai_configure w api_key = Return tt ->
  exists rest r,
    generate_infrastructure_analysis lib w place_name place_type humidity api_key
    = (GenaiConfigure api_key
       :: GenerateContent (prompt_of lib place_name place_type humidity)
       :: rest, r).
Proof.
  intros Hkey Hconf. unfold generate_infrastructure_analysis.
  apply String.eqb_neq in Hkey. rewrite Hkey.
  cbv zeta. unfold try_assign_except, try_except, bind, emit, lift, ret, print.
  rewrite Hconf. cbn [negb app].
  destruct (generate_content w _) as [response|e]; cbn [app].
  - destruct (text response) as [reply|e] eqn:Ht.
    + destruct (json_loads lib (clean_reply reply)) as [v|e].
      * now eexists _, _.
      * destruct (is_Exception e); cbn; rewrite ?Ht; now eexists _, _.
    + destruct (is_Exception e); cbn; rewrite ?Ht; now eexists _, _.
  - destruct (is_Exception e); cbn; now eexists _, _.
Qed.

(** C5: when the climate lookup returns [None], [main] passes the string
    "not available" as the humidity and goes on to call the generator; the
    prompt built from it has "not available" where the humidity goes, and
    the model is called with that prompt. *)
Theorem humidity_failure_is_not_fatal lib w latitude longitude gemini_key tr
    place_name place_type t2 :
  place_resolved lib w latitude longitude gemini_key tr place_name place_type ->
  get_current_humidity lib w latitude longitude = (t2, Return PyNone) ->
  main lib w latitude longitude =
    after (opening lib latitude longitude tr place_name place_type ++ t2
           ++ [ Print "Could not retrieve humidity data. Proceeding without it.";
                Print "Generating AI analysis..." ])
      (ai_analysis <-
         generate_infrastructure_analysis lib w place_name (PyStr place_type)
           (PyStr "not available") gemini_key ;;
       final_report lib place_name place_type ai_analysis)
  /\ Str.contains "not available"
       (prompt_of lib place_name (PyStr place_type) (PyStr "not available"))
     = true
  /\ Str.contains "- Current Local Humidity: not available%"
       (prompt_of lib place_name (PyStr place_type) (PyStr "not available"))
     = true
  /\ (genai_configure w gemini_key = Return tt ->
      In (GenerateContent
            (prompt_of lib place_name (PyStr place_type) (PyStr "not available")))
         (fst (main lib w latitude longitude))).
Proof.
  intros Hplace Hhum.
  pose proof (main_reaches_generator _ _ _ _ _ _ _ _ _ _ Hplace Hhum) as Hmain.
  cbn [humidity_passed humidity_notice is_None app] in Hmain.
  pose proof (prompt_shows_humidity lib place_name (PyStr place_type)
                "not available") as Hline.
  cbn [append] in Hline.
  split; [exact Hmain|]. split; [|split; [exact Hline|]].
  - apply (contains_trans _ "- Current Local Humidity: not available%");
      [reflexivity | exact Hline].
  - intros Hconf. rewrite Hmain. unfold after. cbn [fst].
    destruct Hplace as [mk place _ _ _ Hgk _ _ _ _].
    destruct (generator_calls_model lib w place_name (PyStr place_type)
                (PyStr "not available") gemini_key Hgk Hconf) as [rest [r ->]].
    apply in_or_app. right. unfold bind.
    destruct r as [ai|e]; [destruct (final_report _ _ _ _)|];
      cbn [fst app]; right; left; reflexivity.
Qed.

Lemma humidity_failure_is_not_fatal_witness :
  In (GenerateContent
        (prompt_of Sample.lib (PyStr "UNC Hospital") (PyStr "Hospital")
           (PyStr "not available")))
     (fst (main Sample.lib
             (Sample.world (Some "maps-key") (Some "gemini-key")
                Sample.places_ok Sample.weather_down
                (Sample.reply Sample.critical_reply))
             Sample.latitude Sample.longitude)).
Proof.
  set (w := Sample.world (Some "maps-key") (Some "gemini-key")
              Sample.places_ok Sample.weather_down
              (Sample.reply Sample.critical_reply)).
  apply (humidity_failure_is_not_fatal Sample.lib w Sample.latitude
           Sample.longitude "gemini-key"
           (fst (find_nearest_place Sample.lib w Sample.latitude
                   Sample.longitude "maps-key"))
           (PyStr "UNC Hospital") "Hospital"
           (fst (get_current_humidity Sample.lib w Sample.latitude
                   Sample.longitude))).
  - apply (Place_resolved _ _ _ _ _ _ _ _ "maps-key" Sample.hospital);
      first [reflexivity | discriminate].
  - reflexivity.
  - reflexivity.
Defined.

(** *** Result assembly *)

Lemma dict_get_set d k v k' :
  Dict.get (Dict.set d k v) k' =
  if String.eqb k' k then Some v else Dict.get d k'.
Proof.
  induction d as [|[k0 v0] d IH]; cbn [Dict.set Dict.get]; [reflexivity|].
  destruct (String.eqb k k0) eqn:E; cbn [Dict.get].
  - apply String.eqb_eq in E. subst k0.
    destruct (String.eqb k' k); reflexivity.
  - rewrite IH. destruct (String.eqb k' k0) eqn:E0; [|reflexivity].
    apply String.eqb_eq in E0. subst k0.
    rewrite String.eqb_sym, E. reflexivity.
Qed.

Lemma dict_get_absent d k : ~ In k (Dict.keys d) -> Dict.get d k = None.
Proof.
  induction d as [|[k0 v0] d IH]; cbn [Dict.keys map fst Dict.get In];
    [reflexivity|].
  intros H. destruct (String.eqb k k0) eqn:E.
  - apply String.eqb_eq in E. subst k0. exfalso. apply H. now left.
  - apply IH. intros Hin. apply H. now right.
Qed.

(** After an update the items of [extra] are found first, then those of the
    dictionary updated. *)
Lemma dict_get_update extra : forall d k,
  NoDup (Dict.keys extra) ->
  Dict.get (Dict.update d extra) k =
  match Dict.get extra k with
  | Some v => Some v
  | None => Dict.get d k
  end.
Proof.
  unfold Dict.update.
  induction extra as [|[k0 v0] extra IH]; intros d k Hnd; [reflexivity|].
  cbn [fold_left fst snd Dict.get]. cbn [Dict.keys map fst] in Hnd.
  inversion Hnd as [|? ? Hnotin Hnd']; subst.
  rewrite (IH _ _ Hnd'), dict_get_set.
  destruct (String.eqb k k0) eqn:E; [|reflexivity].
  apply String.eqb_eq in E. subst k0.
  now rewrite (dict_get_absent extra k Hnotin).
Qed.

(** C6: in a run that gets an analysis object back, the report is the
    mapping of [name] and [type] updated with every item of the analysis, an
    item of the analysis winning over [name] or [type] of the same key, and
    it is printed last, as [json.dumps] with [indent=4] renders it. *)
Theorem final_report_merges lib w latitude longitude gemini_key tr
    place_name place_type t2 h t3 analysis :
  place_resolved lib w latitude longitude gemini_key tr place_name place_type ->
  get_current_humidity lib w latitude longitude = (t2, Return h) ->
  generate_infrastructure_analysis lib w place_name (PyStr place_type)
    (humidity_passed h) gemini_key = (t3, Return (PyDict analysis)) ->
  analysis <> [] ->
  let identity := [("name", place_name); ("type", PyStr place_type)] in
  let final_response := Dict.update identity analysis in
  main lib w latitude longitude =
    ((opening lib latitude longitude tr place_name place_type ++ t2
      ++ humidity_notice h ++ [Print "Generating AI analysis..."] ++ t3
      ++ [ Print (Str.nl ++ "--- Analysis Complete ---");
           Print (json_dumps lib 4 (PyDict final_response)) ])%list,
     Return tt)
  /\ (NoDup (Dict.keys analysis) ->
      forall k,
        Dict.get final_response k =
        match Dict.get analysis k with
        | Some v => Some v
        | None => Dict.get identity k
        end).
Proof.
  intros Hplace Hhum Hgen Hne identity final_response. split.
  - rewrite (main_reaches_generator _ _ _ _ _ _ _ _ _ _ Hplace Hhum), Hgen.
    unfold after, final_report, bind.
    destruct analysis as [|item analysis]; [contradiction|].
    cbn [truthy negb py_unpack_into lift print emit ret fst snd app].
    f_equal. rewrite <- !app_assoc. reflexivity.
  - intros Hnd k. apply dict_get_update, Hnd.
Qed.

Lemma final_report_merges_witness :
  snd (main Sample.lib
         (Sample.world (Some "maps-key") (Some "gemini-key")
            Sample.places_ok Sample.weather_ok
            (Sample.reply Sample.critical_reply))
         Sample.latitude Sample.longitude) = Return tt.
Proof.
  set (w := Sample.world (Some "maps-key") (Some "gemini-key")
              Sample.places_ok Sample.weather_ok
              (Sample.reply Sample.critical_reply)).
  destruct (final_report_merges Sample.lib w Sample.latitude
           Sample.longitude "gemini-key"
           (fst (find_nearest_place Sample.lib w Sample.latitude
                   Sample.longitude "maps-key"))
           (PyStr "UNC Hospital") "Hospital"
           (fst (get_current_humidity Sample.lib w Sample.latitude
                   Sample.longitude))
           (PyInt 62)
           (fst (generate_infrastructure_analysis Sample.lib w
                   (PyStr "UNC Hospital") (PyStr "Hospital") (PyInt 62)
                   "gemini-key"))
           [("is_critical", PyBool true)]) as [Hmain _].
  - apply (Place_resolved _ _ _ _ _ _ _ _ "maps-key" Sample.hospital);
      first [reflexivity | discriminate].
  - reflexivity.
  - reflexivity.
  - discriminate.
  - rewrite Hmain. reflexivity.
Defined.

(** *** Falsy results *)

(** A reply that is cleaned and parsed without error is what the generator
    returns, with nothing printed. *)
Lemma generate_returns_parsed lib w place_name place_type humidity api_key
    response reply v :
  api_key <> EmptyString ->
  genai_configure w api_key = Return tt ->
  generate_content w (prompt_of lib place_name place_type humidity)
    = Return response ->
  text response = Return reply ->
  parse_reply lib reply = Return v ->
  generate_infrastructure_analysis lib w place_name place_type humidity api_key
  = ([ GenaiConfigure api_key;
       GenerateContent (prompt_of lib place_name place_type humidity) ],
     Return v).
Proof.
  intros Hkey Hconf Hgen Htext Hparse. unfold generate_infrastructure_analysis.
  apply String.eqb_neq in Hkey. rewrite Hkey.
  cbv zeta. unfold try_assign_except, try_except, bind, emit, lift, ret, print.
  rewrite Hconf. cbn [negb app]. rewrite Hgen. cbn [app].
  unfold parse_reply in Hparse. rewrite Htext, Hparse. reflexivity.
Qed.

(** C10: a reply that parses to a falsy value, such as the empty object,
    makes [main] print the analysis-failure line and stop with no report,
    although nothing raised; and a falsy place from the resolver makes it
    print the no-infrastructure line and stop, by the same test. *)
Theorem falsy_results_abort lib w latitude longitude :
  (forall gemini_key tr place_name place_type t2 h response reply ai_analysis,
     place_resolved lib w latitude longitude gemini_key tr place_name place_type ->
     get_current_humidity lib w latitude longitude = (t2, Return h) ->
     genai_configure w gemini_key = Return tt ->
     generate_content w
       (prompt_of lib place_name (PyStr place_type) (humidity_passed h))
       = Return response ->
     text response = Return reply ->
     parse_reply lib reply = Return ai_analysis ->
     truthy ai_analysis = false ->
     main lib w latitude longitude =
       ((opening lib latitude longitude tr place_name place_type ++ t2
         ++ humidity_notice h
         ++ [ Print "Generating AI analysis...";
              GenaiConfigure gemini_key;
              GenerateContent
                (prompt_of lib place_name (PyStr place_type) (humidity_passed h));
              Print "Failed to generate AI analysis. Exiting." ])%list,
        Return tt))
  /\ (forall maps_key gemini_key tr nearest_place,
     getenv w "GOOGLE_MAPS_API_KEY" = Some maps_key ->
     maps_key <> EmptyString ->
     getenv w "GEMINI_API_KEY" = Some gemini_key ->
     gemini_key <> EmptyString ->
     find_nearest_place lib w latitude longitude maps_key
       = (tr, Return nearest_place) ->
     truthy nearest_place = false ->
     main lib w latitude longitude =
       ((Print ("Searching for nearest infrastructure near ("
                ++ py_str lib (PyFloat latitude) ++ ", "
                ++ py_str lib (PyFloat longitude) ++ ")...")
         :: tr
         ++ [Print "Could not find any nearby infrastructure. Exiting."])%list,
        Return tt)).
Proof.
  split.
  - intros gk tr name ty t2 h response reply ai Hplace Hhum Hconf Hgen Htext
      Hparse Hfalsy.
    rewrite (main_reaches_generator _ _ _ _ _ _ _ _ _ _ Hplace Hhum).
    destruct Hplace as [mk place _ _ _ Hgk _ _ _ _].
    rewrite (generate_returns_parsed _ _ _ _ _ _ _ _ _ Hgk Hconf Hgen Htext Hparse).
    unfold after, final_report, bind. rewrite Hfalsy.
    cbn [negb print emit fst snd app]. f_equal.
    rewrite <- !app_assoc. reflexivity.
  - intros mk gk tr place Hmk Hmk' Hgk Hgk' Hfind Hfalsy.
    unfold main. cbv zeta. rewrite Hmk, Hgk. cbn [env_falsy env_str].
    apply String.eqb_neq in Hmk', Hgk'. rewrite Hmk', Hgk'.
    cbn [bind print emit ret fst snd]. rewrite Hfind.
    cbn [bind print emit ret fst snd]. rewrite Hfalsy. reflexivity.
Qed.

Lemma falsy_results_abort_witness :
  last (fst (main Sample.lib
               (Sample.world (Some "maps-key") (Some "gemini-key")
                  Sample.places_ok Sample.weather_ok (Sample.reply "{}"))
               Sample.latitude Sample.longitude))
       (Print EmptyString)
    = Print "Failed to generate AI analysis. Exiting."
  /\ last (fst (main Sample.lib
               (Sample.world (Some "maps-key") (Some "gemini-key")
                  (Sample.ok (PyDict [("status", PyStr "OK");
                                      ("results", PyList [PyDict []])]))
                  Sample.weather_ok (Sample.reply Sample.critical_reply))
               Sample.latitude Sample.longitude))
       (Print EmptyString)
    = Print "Could not find any nearby infrastructure. Exiting.".
Proof.
  split.
  - set (w := Sample.world (Some "maps-key") (Some "gemini-key")
                Sample.places_ok Sample.weather_ok (Sample.reply "{}")).
    rewrite (proj1 (falsy_results_abort Sample.lib w Sample.latitude
                      Sample.longitude)
               "gemini-key"
               (fst (find_nearest_place Sample.lib w Sample.latitude
                       Sample.longitude "maps-key"))
               (PyStr "UNC Hospital") "Hospital"
               (fst (get_current_humidity Sample.lib w Sample.latitude
                       Sample.longitude))
               (PyInt 62) {| text := Return "{}" |} "{}" (PyDict []));
      [ | apply (Place_resolved _ _ _ _ _ _ _ _ "maps-key" Sample.hospital);
          first [reflexivity | discriminate]
        | reflexivity .. ].
    reflexivity.
  - set (w := Sample.world (Some "maps-key") (Some "gemini-key")
                (Sample.ok (PyDict [("status", PyStr "OK");
                                    ("results", PyList [PyDict []])]))
                Sample.weather_ok (Sample.reply Sample.critical_reply)).
    rewrite (proj2 (falsy_results_abort Sample.lib w Sample.latitude
                      Sample.longitude)
               "maps-key" "gemini-key"
               (fst (find_nearest_place Sample.lib w Sample.latitude
                       Sample.longitude "maps-key"))
               (PyDict []));
      [ | first [reflexivity | discriminate] .. ].
    reflexivity.
Defined.

(** * Further properties of the script *)

(** ** Network calls of the stages *)

Lemma net_bind {A B} (m : M A) (k : A -> M B) :
  network_calls (fst (bind m k)) =
  (network_calls (fst m) ++
   match snd m with
   | Return a => network_calls (fst (k a))
   | Raise _ => []
   end)%list.
Proof.
  unfold network_calls, bind. destruct m as [tr [a|e]]; cbn [fst snd].
  - destruct (k a) as [tr' r]. cbn [fst]. apply filter_app.
  - now rewrite app_nil_r.
Qed.

Lemma net_try_except {A} (body : M A) catches handler :
  network_calls (fst (try_except body catches handler)) =
  (network_calls (fst body) ++
   match snd body with
   | Raise e => if catches e then network_calls (fst (handler e)) else []
   | Return _ => []
   end)%list.
Proof.
  unfold network_calls, try_except. destruct body as [tr [a|e]]; cbn [fst snd].
  - now rewrite app_nil_r.
  - destruct (catches e); [|now rewrite app_nil_r].
    destruct (handler e) as [tr' r]. cbn [fst]. apply filter_app.
Qed.

Lemma net_try_except2 {A} (body : M A) c1 h1 c2 h2 :
  network_calls (fst (try_except2 body c1 h1 c2 h2)) =
  (network_calls (fst body) ++
   match snd body with
   | Raise e =>
       if c1 e then network_calls (fst (h1 e))
       else if c2 e then network_calls (fst (h2 e)) else []
   | Return _ => []
   end)%list.
Proof.
  unfold network_calls, try_except2. destruct body as [tr [a|e]]; cbn [fst snd].
  - now rewrite app_nil_r.
  - destruct (c1 e).
    + destruct (h1 e) as [tr' r]. cbn [fst]. apply filter_app.
    + destruct (c2 e); [|now rewrite app_nil_r].
      destruct (h2 e) as [tr' r]. cbn [fst]. apply filter_app.
Qed.

Lemma snd_bind {A B} (m : M A) (k : A -> M B) :
  snd (bind m k) =
  match snd m with
  | Return a => snd (k a)
  | Raise e => Raise e
  end.
Proof.
  unfold bind. destruct m as [tr [a|e]]; cbn [snd]; [|reflexivity].
  now destruct (k a).
Qed.

Lemma snd_try_except {A} (body : M A) catches handler :
  snd (try_except body catches handler) =
  match snd body with
  | Raise e => if catches e then snd (handler e) else Raise e
  | Return a => Return a
  end.
Proof.
  unfold try_except. destruct body as [tr [a|e]]; cbn [snd]; [reflexivity|].
  destruct (catches e); [|reflexivity]. now destruct (handler e).
Qed.

Lemma snd_try_except2 {A} (body : M A) c1 h1 c2 h2 :
  snd (try_except2 body c1 h1 c2 h2) =
  match snd body with
  | Raise e =>
      if c1 e then snd (h1 e) else if c2 e then snd (h2 e) else Raise e
  | Return a => Return a
  end.
Proof.
  unfold try_except2. destruct body as [tr [a|e]]; cbn [snd]; [reflexivity|].
  destruct (c1 e); [now destruct (h1 e)|].
  destruct (c2 e); [now destruct (h2 e)|reflexivity].
Qed.

Ltac one_line := eexists [_]; split; [reflexivity | cbn; lia].
Ltac no_line := exists []; split; [reflexivity | cbn; lia].

Lemma find_nearest_place_trace lib w lat lon api_key :
  exists lines,
    fst (find_nearest_place lib w lat lon api_key)
      = HttpGet places_url (places_params lib lat lon api_key) :: map Print lines
    /\ (length lines <= 1)%nat.
Proof.
  unfold find_nearest_place, requests_get. cbv zeta.
  cbn [bind emit lift].
  destruct (http_get w places_url (places_params lib lat lon api_key)) as [r|e].
  2:{ cbn. destruct (is_RequestException e); cbn;
        [one_line | no_line]. }
  unfold raise_for_status.
  destruct ((400 <=? status_code r) && (status_code r <? 600))%Z.
  { cbn. one_line. }
  cbn [bind ret lift].
  destruct (json_body r) as [body|e].
  2:{ cbn. destruct (is_RequestException e); cbn;
        [one_line | no_line]. }
  destruct body as [ | | | | | | d]; try (cbn; no_line).
  cbn -[String.eqb py_eq_str].
  destruct (py_eq_str _ "OK").
  - destruct (Dict.get d "results") as [listed|]; cbn -[String.eqb];
      [|one_line].
    destruct (truthy listed); cbn -[String.eqb]; [|one_line].
    destruct (py_first listed) as [x|e]; cbn; [no_line|].
    destruct (is_RequestException e); cbn; [one_line | no_line].
  - cbn. one_line.
Qed.

Lemma network_calls_prints lines : network_calls (map Print lines) = [].
Proof. induction lines as [|l lines IH]; [reflexivity | exact IH]. Qed.

Lemma find_nearest_place_escapes lib w lat lon api_key e :
  snd (find_nearest_place lib w lat lon api_key) = Raise e ->
  is_RequestException e = false.
Proof.
  unfold find_nearest_place. cbv zeta. rewrite snd_try_except.
  destruct (snd (_ <- requests_get w places_url _ ;; _)) as [v|e0];
    [discriminate|].
  destruct (is_RequestException e0) eqn:E; [discriminate|].
  now intros [= <-].
Qed.

Lemma find_nearest_place_silent lib w lat lon api_key v :
  snd (find_nearest_place lib w lat lon api_key) = Return v ->
  v <> PyNone ->
  fst (find_nearest_place lib w lat lon api_key)
    = [HttpGet places_url (places_params lib lat lon api_key)].
Proof.
  unfold find_nearest_place, requests_get. cbv zeta.
  cbn [bind emit lift].
  destruct (http_get w places_url (places_params lib lat lon api_key)) as [r|e].
  2:{ cbn. destruct (is_RequestException e); cbn; [|discriminate].
      intros [= <-] H. now contradiction H. }
  unfold raise_for_status.
  destruct ((400 <=? status_code r) && (status_code r <? 600))%Z.
  { cbn. intros [= <-] H. now contradiction H. }
  cbn [bind ret lift].
  destruct (json_body r) as [body|e].
  2:{ cbn. destruct (is_RequestException e); cbn; [|discriminate].
      intros [= <-] H. now contradiction H. }
  destruct body as [ | | | | | | d]; try (cbn; discriminate).
  cbn -[String.eqb py_eq_str].
  destruct (py_eq_str _ "OK").
  - destruct (Dict.get d "results") as [listed|]; cbn -[String.eqb];
      [|intros [= <-] H; now contradiction H].
    destruct (truthy listed); cbn -[String.eqb];
      [|intros [= <-] H; now contradiction H].
    destruct (py_first listed) as [x|e]; cbn; [reflexivity|].
    destruct (is_RequestException e); cbn; [|discriminate].
    intros [= <-] H. now contradiction H.
  - cbn. intros [= <-] H. now contradiction H.
Qed.

(** X1: whatever the service answers, the trace of the resolver is one
    request, the GET of the nearby-search URL ranked by distance with the
    caller's key, followed by at most one printed line: the request comes
    first and is never repeated. *)
Theorem find_nearest_place_one_request lib w lat lon api_key :
  (exists lines,
     fst (find_nearest_place lib w lat lon api_key)
       = HttpGet places_url (places_params lib lat lon api_key)
         :: map Print lines
     /\ (length lines <= 1)%nat)
  /\ network_calls (fst (find_nearest_place lib w lat lon api_key))
     = [HttpGet places_url (places_params lib lat lon api_key)]
  /\ In ("rankby", "distance") (places_params lib lat lon api_key)
  /\ In ("key", api_key) (places_params lib lat lon api_key).
Proof.
  destruct (find_nearest_place_trace lib w lat lon api_key)
    as [lines [E Hlen]].
  split; [|split; [|split]].
  - exists lines. split; [exact E | exact Hlen].
  - rewrite E. unfold network_calls. cbn [filter is_network].
    now rewrite (network_calls_prints lines : filter _ _ = []).
  - cbn. tauto.
  - cbn. tauto.
Qed.

(** X2: an exception that leaves the resolver is never a [RequestException]
    (those are all turned into [None]), and a result other than [None] comes
    with nothing printed. *)
Theorem find_nearest_place_outcomes lib w lat lon api_key :
  (forall e, snd (find_nearest_place lib w lat lon api_key) = Raise e ->
             is_RequestException e = false)
  /\ (forall v, snd (find_nearest_place lib w lat lon api_key) = Return v ->
                v <> PyNone ->
                fst (find_nearest_place lib w lat lon api_key)
                  = [HttpGet places_url (places_params lib lat lon api_key)]).
Proof.
  split.
  - intros e. apply find_nearest_place_escapes.
  - intros v. apply find_nearest_place_silent.
Qed.

(** X3: when the body of a 2xx response is JSON but not an object, the
    resolver's [results.get] raises [AttributeError], which its [except] clause
    does not catch: the exception reaches the caller and nothing is printed. *)
Theorem find_nearest_place_raises_on_non_object lib w lat lon api_key r body :
  http_get w places_url (places_params lib lat lon api_key) = Return r ->
  is_2xx r ->
  json_body r = Return body ->
  is_dict body = false ->
  find_nearest_place lib w lat lon api_key
  = ([HttpGet places_url (places_params lib lat lon api_key)],
     Raise (no_attribute body "get")).
Proof.
  intros Hget H2 Hb Hnd. unfold find_nearest_place, requests_get. cbv zeta.
  cbn [bind emit lift]. rewrite Hget, (raise_for_status_2xx r H2), Hb.
  destruct body; try discriminate Hnd; reflexivity.
Qed.

Lemma find_nearest_place_raises_on_non_object_witness :
  find_nearest_place Sample.lib
    (Sample.world (Some "maps-key") (Some "gemini-key") (Sample.ok (PyList [])) Sample.weather_ok (Sample.reply Sample.critical_reply))
    Sample.latitude Sample.longitude "maps-key"
  = ([HttpGet places_url
        (places_params Sample.lib Sample.latitude Sample.longitude "maps-key")],
     Raise (Exn AttributeError "'list' object has no attribute 'get'")).
Proof.
  apply (find_nearest_place_raises_on_non_object Sample.lib _ _ _ _
           {| status_code := 200; http_error_msg := EmptyString;
              json_body := Return (PyList []) |} (PyList []));
    first [reflexivity | unfold is_2xx; simpl; lia].
Defined.

Lemma get_current_humidity_trace lib w lat lon :
  exists lines,
    fst (get_current_humidity lib w lat lon)
      = HttpGet (weather_url lib lat lon) [] :: map Print lines
    /\ (length lines <= 1)%nat.
Proof.
  unfold get_current_humidity, requests_get. cbv zeta.
  cbn [bind emit lift].
  destruct (http_get w (weather_url lib lat lon) []) as [r|e].
  2:{ cbn. destruct (is_RequestException e); cbn; [one_line|].
      destruct (is_KeyError e); cbn; [one_line | no_line]. }
  unfold raise_for_status.
  destruct ((400 <=? status_code r) && (status_code r <? 600))%Z.
  { cbn. one_line. }
  cbn [bind ret lift].
  destruct (json_body r) as [body|e].
  2:{ cbn. destruct (is_RequestException e); cbn; [one_line|].
      destruct (is_KeyError e); cbn; [one_line | no_line]. }
  destruct body as [ | | | | | | d]; try (cbn; no_line).
  cbn -[String.eqb].
  destruct (Dict.get d "current") as [current|]; cbn -[String.eqb];
    [|one_line].
  destruct current as [ | | | | | | c]; try (cbn; no_line).
  cbn -[String.eqb].
  destruct (Dict.get c "relative_humidity_2m"); cbn; [no_line | one_line].
Qed.

Lemma get_current_humidity_escapes lib w lat lon e :
  snd (get_current_humidity lib w lat lon) = Raise e ->
  is_RequestException e = false /\ is_KeyError e = false.
Proof.
  unfold get_current_humidity. cbv zeta. rewrite snd_try_except2.
  destruct (snd (_ <- requests_get w (weather_url lib lat lon) [] ;; _))
    as [v|e0]; [discriminate|].
  destruct (is_RequestException e0) eqn:E1; [discriminate|].
  destruct (is_KeyError e0) eqn:E2; [discriminate|].
  now intros [= <-].
Qed.

(** X4: whatever the service answers, the trace of the climate lookup is
    one request, the GET of the forecast URL without parameters, followed by
    at most one printed line; and it lets neither a [RequestException] nor a
    [KeyError] out. *)
Theorem get_current_humidity_one_request lib w lat lon :
  (exists lines,
     fst (get_current_humidity lib w lat lon)
       = HttpGet (weather_url lib lat lon) [] :: map Print lines
     /\ (length lines <= 1)%nat)
  /\ network_calls (fst (get_current_humidity lib w lat lon))
     = [HttpGet (weather_url lib lat lon) []]
  /\ (forall e, snd (get_current_humidity lib w lat lon) = Raise e ->
                is_RequestException e = false /\ is_KeyError e = false).
Proof.
  destruct (get_current_humidity_trace lib w lat lon) as [lines [E Hlen]].
  split; [|split].
  - exists lines. split; [exact E | exact Hlen].
  - rewrite E. unfold network_calls. cbn [filter is_network].
    now rewrite (network_calls_prints lines : filter _ _ = []).
  - intros e. apply get_current_humidity_escapes.
Qed.

(** ** The generator, case by case *)

Lemma generate_network lib w place_name place_type humidity api_key :
  network_calls
    (fst (generate_infrastructure_analysis lib w place_name place_type
            humidity api_key)) = []
  \/ network_calls
       (fst (generate_infrastructure_analysis lib w place_name place_type
               humidity api_key))
     = [GenerateContent (prompt_of lib place_name place_type humidity)].
Proof.
  unfold generate_infrastructure_analysis.
  destruct (String.eqb api_key EmptyString); [now left|].
  cbv zeta. unfold try_assign_except, try_except, bind, emit, lift, ret, print,
    local_var.
  destruct (genai_configure w api_key) as [[]|e]; cbn [negb app].
  2:{ destruct (is_Exception e); now left. }
  destruct (generate_content w _) as [response|e]; cbn [app].
  - destruct (text response) as [reply|e] eqn:Ht.
    + destruct (json_loads lib (clean_reply reply)) as [v|e]; [now right|].
      destruct (is_Exception e); cbn; rewrite ?Ht; now right.
    + destruct (is_Exception e); cbn; rewrite ?Ht; now right.
  - destruct (is_Exception e); cbn; now right.
Qed.

(** X5: with an empty key, or when configuring the client raises, the generator
    returns [None] after printing one line, and the model is never called. *)
Theorem generate_without_model_call lib w place_name place_type humidity
    api_key :
  api_key = EmptyString
  \/ (exists e, genai_configure w api_key = Raise e /\ is_Exception e = true) ->
  snd (generate_infrastructure_analysis lib w place_name place_type humidity
         api_key) = Return PyNone
  /\ network_calls
       (fst (generate_infrastructure_analysis lib w place_name place_type
               humidity api_key)) = []
  /\ exists line,
       last (fst (generate_infrastructure_analysis lib w place_name place_type
                    humidity api_key)) (GenaiConfigure api_key)
       = Print line.
Proof.
  unfold generate_infrastructure_analysis.
  intros [-> | [e [Hconf He]]].
  - cbn. repeat split. now eexists.
  - destruct (String.eqb api_key EmptyString);
      [cbn; repeat split; now eexists|].
    cbv zeta. unfold try_except, bind, emit, lift, ret, print.
    rewrite Hconf. cbn [app]. rewrite He. cbn. repeat split. now eexists.
Qed.

Lemma generate_without_model_call_witness :
  snd (generate_infrastructure_analysis Sample.lib
         (Sample.world (Some "maps-key") (Some "gemini-key") Sample.places_ok Sample.weather_ok (Sample.reply Sample.critical_reply))
         (PyStr "UNC Hospital") (PyStr "Hospital") (PyInt 62) EmptyString)
  = Return PyNone.
Proof.
  apply (generate_without_model_call Sample.lib). left. reflexivity.
Defined.

(** X6: once the model has replied with a readable text, the generator returns
    whatever [json.loads] makes of the cleaned text, unchecked and with nothing
    printed; when [json.loads] raises an [Exception] it prints the error and
    the raw reply and returns [None]; what is not an [Exception] goes through. *)
Theorem generate_with_reply lib w place_name place_type humidity api_key
    response reply :
  api_key <> EmptyString ->
  genai_configure w api_key = Return tt ->
  generate_content w (prompt_of lib place_name place_type humidity)
    = Return response ->
  text response = Return reply ->
  generate_infrastructure_analysis lib w place_name place_type humidity api_key
  = match json_loads lib (clean_reply reply) with
    | Return v =>
        ([ GenaiConfigure api_key;
           GenerateContent (prompt_of lib place_name place_type humidity) ],
         Return v)
    | Raise e =>
        if is_Exception e then
          ([ GenaiConfigure api_key;
             GenerateContent (prompt_of lib place_name place_type humidity);
             Print ("An error occurred during Gemini API call: " ++ exn_msg e);
             Print ("Received text: " ++ reply) ],
           Return PyNone)
        else
          ([ GenaiConfigure api_key;
             GenerateContent (prompt_of lib place_name place_type humidity) ],
           Raise e)
    end.
Proof.
  intros Hkey Hconf Hgen Htext.
  destruct (json_loads lib (clean_reply reply)) as [v|e] eqn:Hloads.
  - apply (generate_returns_parsed lib w _ _ _ _ response reply v);
      assumption.
  - destruct (is_Exception e) eqn:He.
    + apply (generate_returns_None_on_bad_reply lib w _ _ _ _ response reply e);
        assumption.
    + unfold generate_infrastructure_analysis.
      apply String.eqb_neq in Hkey. rewrite Hkey.
      cbv zeta. unfold try_assign_except, try_except, bind, emit, lift, ret, print.
      rewrite Hconf. cbn [negb app]. rewrite Hgen. cbn [app].
      rewrite Htext, Hloads, He. reflexivity.
Qed.

Lemma generate_with_reply_witness :
  snd (generate_infrastructure_analysis Sample.lib
         (Sample.world (Some "maps-key") (Some "gemini-key") Sample.places_ok Sample.weather_ok (Sample.reply Sample.critical_reply))
         (PyStr "UNC Hospital") (PyStr "Hospital") (PyInt 62) "gemini-key")
  = Return (PyDict [("is_critical", PyBool true)]).
Proof.
  rewrite (generate_with_reply Sample.lib _ _ _ _ "gemini-key"
             {| text := Return Sample.critical_reply |} Sample.critical_reply);
    [reflexivity | discriminate | reflexivity | reflexivity | reflexivity].
Defined.

(** X7: when reading [response.text] raises, the handler prints the error line
    and then reads [response.text] again, so the same exception leaves the
    generator instead of [None]. *)
Theorem generate_raises_when_text_unreadable lib w place_name place_type
    humidity api_key response e :
  api_key <> EmptyString ->
  genai_configure w api_key = Return tt ->
  generate_content w (prompt_of lib place_name place_type humidity)
    = Return response ->
  text response = Raise e ->
  is_Exception e = true ->
  generate_infrastructure_analysis lib w place_name place_type humidity api_key
  = ([ GenaiConfigure api_key;
       GenerateContent (prompt_of lib place_name place_type humidity);
       Print ("An error occurred during Gemini API call: " ++ exn_msg e) ],
     Raise e).
Proof.
  intros Hkey Hconf Hgen Htext He. unfold generate_infrastructure_analysis.
  apply String.eqb_neq in Hkey. rewrite Hkey.
  cbv zeta. unfold try_assign_except, try_except, bind, emit, lift, ret, print,
    local_var.
  rewrite Hconf. cbn [negb app]. rewrite Hgen. cbn [app].
  rewrite Htext, He. unfold lift, ret. rewrite Htext. reflexivity.
Qed.

Lemma generate_raises_when_text_unreadable_witness :
  snd (generate_infrastructure_analysis Sample.lib
         (Sample.world (Some "maps-key") (Some "gemini-key") Sample.places_ok Sample.weather_ok (Return {| text := Raise (Exn ValueError "The response has no valid part") |}))
         (PyStr "UNC Hospital") (PyStr "Hospital") (PyInt 62) "gemini-key")
  = Raise (Exn ValueError "The response has no valid part").
Proof.
  rewrite (generate_raises_when_text_unreadable Sample.lib _ _ _ _ "gemini-key"
             {| text := Raise (Exn ValueError "The response has no valid part") |}
             (Exn ValueError "The response has no valid part"));
    [reflexivity | discriminate | reflexivity | reflexivity | reflexivity
     | reflexivity].
Defined.

(** X8: the generator calls the model at most once, and only with the prompt
    built from its three inputs. *)
Theorem generate_at_most_one_model_call lib w place_name place_type humidity
    api_key :
  (length (network_calls
             (fst (generate_infrastructure_analysis lib w place_name place_type
                     humidity api_key))) <= 1)%nat
  /\ forall ev,
       In ev (network_calls
                (fst (generate_infrastructure_analysis lib w place_name
                        place_type humidity api_key))) ->
       ev = GenerateContent (prompt_of lib place_name place_type humidity).
Proof.
  destruct (generate_network lib w place_name place_type humidity api_key)
    as [-> | ->]; split; cbn; try lia; intros ev; tauto || (intros [<-|[]];
    reflexivity).
Qed.

(** ** What cleaning leaves of the fences *)

Lemma replace_scan_skip old new : forall k s,
  Str.replace_scan old new k s = Str.replace_scan old new 0 (drop k s).
Proof.
  induction k as [|k IH]; intros s; [reflexivity|].
  destruct s as [|c s]; [reflexivity|].
  cbn [Str.replace_scan drop]. apply IH.
Qed.

Lemma startswith_fence s :
  Str.startswith "```" s = (3 <=? leading_backticks s)%nat.
Proof.
  destruct s as [|a [|b [|c s]]]; cbn [Str.startswith leading_backticks];
    repeat match goal with
           | |- context [Ascii.eqb "`" ?x] => destruct (Ascii.eqb "`" x)
           end; reflexivity.
Qed.

Lemma remove_fence_step s :
  Str.replace_scan "```" EmptyString 0 s =
  match s with
  | EmptyString => EmptyString
  | String c s' =>
      if (3 <=? leading_backticks s)%nat
      then Str.replace_scan "```" EmptyString 0 (drop 3 s)
      else String c (Str.replace_scan "```" EmptyString 0 s')
  end.
Proof.
  destruct s as [|c s']; [reflexivity|].
  rewrite <- startswith_fence. cbn [Str.replace_scan String.length Nat.sub].
  destruct (Str.startswith "```" (String c s')); [|reflexivity].
  cbn [append drop]. apply replace_scan_skip.
Qed.

Lemma leading_backticks_drop3 s :
  (3 <= leading_backticks s)%nat ->
  leading_backticks (drop 3 s) = (leading_backticks s - 3)%nat
  /\ (String.length (drop 3 s) < String.length s)%nat.
Proof.
  destruct s as [|a [|b [|c s]]]; cbn [leading_backticks];
    repeat match goal with
           | |- context [Ascii.eqb "`" ?x] => destruct (Ascii.eqb "`" x)
           end; cbn [leading_backticks drop String.length]; lia.
Qed.

Lemma leading_backticks_removed : forall n s,
  (String.length s <= n)%nat ->
  leading_backticks (Str.replace_scan "```" EmptyString 0 s)
    = (leading_backticks s mod 3)%nat.
Proof.
  induction n as [|n IH]; intros s Hlen.
  - destruct s; [reflexivity | cbn in Hlen; lia].
  - rewrite remove_fence_step. destruct s as [|c s']; [reflexivity|].
    destruct (3 <=? leading_backticks (String c s'))%nat eqn:E.
    + apply Nat.leb_le in E.
      destruct (leading_backticks_drop3 _ E) as [Hd Hl].
      rewrite IH by (cbn [String.length] in *; lia). rewrite Hd.
      replace (leading_backticks (String c s'))
        with ((leading_backticks (String c s') - 3) + 1 * 3)%nat at 2 by lia.
      now rewrite Nat.Div0.mod_add.
    + apply Nat.leb_gt in E. cbn [leading_backticks] in *.
      destruct (Ascii.eqb "`" c); [|reflexivity].
      rewrite IH by (cbn [String.length] in Hlen; lia).
      rewrite !Nat.mod_small by lia. reflexivity.
Qed.

Lemma no_fence_after_removal : forall n s,
  (String.length s <= n)%nat ->
  Str.contains "```" (Str.replace_scan "```" EmptyString 0 s) = false.
Proof.
  induction n as [|n IH]; intros s Hlen.
  - destruct s; [reflexivity | cbn in Hlen; lia].
  - rewrite remove_fence_step. destruct s as [|c s']; [reflexivity|].
    destruct (3 <=? leading_backticks (String c s'))%nat eqn:E.
    + apply Nat.leb_le in E.
      destruct (leading_backticks_drop3 _ E) as [_ Hl].
      apply IH. cbn [String.length] in *. lia.
    + apply Nat.leb_gt in E. cbn [Str.contains].
      rewrite IH by (cbn [String.length] in Hlen; lia).
      rewrite orb_false_r, startswith_fence. apply Nat.leb_gt.
      cbn [leading_backticks] in *.
      destruct (Ascii.eqb "`" c); [|lia].
      rewrite (leading_backticks_removed (String.length s')) by lia.
      rewrite Nat.mod_small by lia. lia.
Qed.

(** X9: the cleaned reply holds no fence marker, neither [```] nor
    [```json], whatever the reply was. *)
Theorem clean_reply_leaves_no_fence reply :
  Str.contains "```" (clean_reply reply) = false
  /\ Str.contains "```json" (clean_reply reply) = false.
Proof.
  assert (H : Str.contains "```" (clean_reply reply) = false).
  { unfold clean_reply, Str.replace at 1.
    apply (no_fence_after_removal _ _ (Nat.le_refl _)). }
  split; [exact H|]. exact (contains_longer "```" "json" _ H).
Qed.

(** X10: whitespace around the reply does not change the cleaned text. *)
Theorem clean_reply_ignores_padding before reply after :
  Str.all Str.is_space before = true ->
  Str.all Str.is_space after = true ->
  clean_reply (before ++ reply ++ after) = clean_reply reply.
Proof.
  intros Hb Ha. unfold clean_reply. now rewrite (strip_padded _ _ _ Hb Ha).
Qed.

Lemma clean_reply_ignores_padding_witness :
  clean_reply ("  " ++ fenced "{}" ++ Str.nl) = clean_reply (fenced "{}").
Proof. apply clean_reply_ignores_padding; reflexivity. Defined.

(** X11: a fence without the [json] tag is removed like a tagged one: the
    cleaned text is the fenced text between two newlines. *)
Theorem clean_reply_untagged_fence t :
  Str.contains "```" t = false ->
  clean_reply ("```" ++ Str.nl ++ t ++ Str.nl ++ "```") = Str.nl ++ t ++ Str.nl.
Proof.
  intros H. unfold clean_reply.
  assert (Hs : Str.strip ("```" ++ Str.nl ++ t ++ Str.nl ++ "```")
               = "```" ++ Str.nl ++ t ++ Str.nl ++ "```").
  { unfold Str.strip.
    replace ("```" ++ Str.nl ++ t ++ Str.nl ++ "```")
      with (("```" ++ Str.nl ++ t ++ Str.nl ++ "``") ++ "`")
      by (rewrite !append_assoc; reflexivity).
    change (Str.lstrip (("```" ++ Str.nl ++ t ++ Str.nl ++ "``") ++ "`"))
      with (("```" ++ Str.nl ++ t ++ Str.nl ++ "``") ++ "`").
    apply rstrip_app_kept. reflexivity. }
  rewrite Hs.
  assert (H1 : Str.replace "```json" EmptyString
                 ("```" ++ Str.nl ++ t ++ Str.nl ++ "```")
               = "```" ++ Str.nl ++ t ++ Str.nl ++ "```").
  { change (Str.replace "```json" EmptyString
              ("```" ++ Str.nl ++ t ++ Str.nl ++ "```"))
      with ("```" ++ Str.nl ++ Str.replace_scan "```json" EmptyString 0
                        (t ++ String (ascii_of_nat 10) "```")).
    rewrite replace_scan_app;
      [reflexivity | reflexivity | exact (contains_longer "```" "json" t H)]. }
  rewrite H1.
  change (Str.replace "```" EmptyString ("```" ++ Str.nl ++ t ++ Str.nl ++ "```"))
    with (Str.nl ++ Str.replace_scan "```" EmptyString 0
                      (t ++ String (ascii_of_nat 10) "```")).
  rewrite replace_scan_app; [reflexivity | reflexivity | exact H].
Qed.

Lemma clean_reply_untagged_fence_witness :
  clean_reply ("```" ++ Str.nl ++ Sample.critical_reply ++ Str.nl ++ "```")
  = Str.nl ++ Sample.critical_reply ++ Str.nl.
Proof. apply clean_reply_untagged_fence. reflexivity. Defined.

(** ** The derived category *)

Lemma length_title_scan s : forall b,
  String.length (Str.title_scan b s) = String.length s.
Proof.
  induction s as [|c s IH]; intros b; cbn [Str.title_scan String.length];
    [reflexivity | now rewrite IH].
Qed.

Lemma length_replace_underscore s :
  String.length (Str.replace "_" " " s) = String.length s.
Proof.
  unfold Str.replace. induction s as [|c s IH]; [reflexivity|].
  rewrite replace_scan_char.
  destruct (Ascii.eqb "_" c); cbn [append String.length]; now rewrite IH.
Qed.

(** X12: the derived category has the length of the raw category and no
    underscore. *)
Theorem derive_category_shape s :
  String.length (derive_category s) = String.length s
  /\ no_underscore (derive_category s) = true.
Proof.
  unfold derive_category, Str.title. split.
  - now rewrite length_title_scan, length_replace_underscore.
  - apply title_scan_no_underscore, replace_underscore_clean.
Qed.

(** ** The prompt *)

Ltac find_line :=
  repeat first
    [ solve [apply contains_here; cbn; apply startswith_self]
    | apply contains_cons
    | apply contains_app_r ].

Lemma prompt_lines lib place_name place_type humidity :
  Str.contains ("- Infrastructure Name: " ++ quoted (py_str lib place_name))
    (prompt_of lib place_name place_type humidity) = true
  /\ Str.contains ("- Infrastructure Type: " ++ quoted (py_str lib place_type))
       (prompt_of lib place_name place_type humidity) = true
  /\ Str.contains ("- Current Local Humidity: " ++ py_str lib humidity ++ "%")
       (prompt_of lib place_name place_type humidity) = true.
Proof.
  unfold prompt_of, quoted. cbn [Str.join_lines].
  generalize (py_str lib place_name) (py_str lib place_type)
    (py_str lib humidity).
  intros n t h. unfold Str.dquote, Str.nl. cbn [append].
  split; [|split]; find_line.
Qed.

(** ** Keys of the report *)

Lemma keys_set d k v :
  (In k (Dict.keys d) -> Dict.keys (Dict.set d k v) = Dict.keys d)
  /\ (~ In k (Dict.keys d) ->
      Dict.keys (Dict.set d k v) = (Dict.keys d ++ [k])%list).
Proof.
  unfold Dict.keys.
  induction d as [|[k0 v0] d [IHin IHnew]]; cbn [Dict.set map fst In app].
  - split; [contradiction | reflexivity].
  - destruct (String.eqb k k0) eqn:E; cbn [map fst].
    + apply String.eqb_eq in E. subst k0. split; [reflexivity|].
      intros H. exfalso. apply H. now left.
    + apply String.eqb_neq in E. split.
      * intros [H|H]; [congruence|]. now rewrite (IHin H).
      * intros H. rewrite IHnew; [reflexivity|]. intros Hin. apply H. now right.
Qed.

Lemma keys_update extra : forall d,
  exists added,
    Dict.keys (Dict.update d extra) = (Dict.keys d ++ added)%list
    /\ (NoDup (Dict.keys d) -> NoDup (Dict.keys d ++ added))
    /\ (forall k, In k added -> In k (Dict.keys extra))
    /\ (forall k, In k (Dict.keys extra) -> In k (Dict.keys d ++ added)).
Proof.
  unfold Dict.update.
  induction extra as [|[k v] extra IH]; intros d; cbn [fold_left fst snd].
  - exists []. rewrite app_nil_r. cbn. tauto.
  - destruct (IH (Dict.set d k v)) as [added [Hk [Hnd [Hsub Hsup]]]].
    destruct (in_dec string_dec k (Dict.keys d)) as [Hin|Hnew].
    + rewrite (proj1 (keys_set d k v) Hin) in Hk, Hnd, Hsup.
      exists added. split; [exact Hk|]. split; [exact Hnd|]. split.
      * intros k' H. right. now apply Hsub.
      * intros k' [<-|H]; [apply in_or_app; now left | now apply Hsup].
    + rewrite (proj2 (keys_set d k v) Hnew) in Hk, Hnd, Hsup.
      rewrite <- app_assoc in Hk, Hnd, Hsup.
      exists ([k] ++ added)%list. split; [exact Hk|]. split.
      * intros H. apply Hnd. apply NoDup_app; [exact H | repeat constructor; easy |].
        intros x Hx [<-|[]]. contradiction.
      * split.
        -- intros k' [<-|H]; [now left | right; now apply Hsub].
        -- intros k' [<-|H]; [apply in_or_app; right; now left | now apply Hsup].
Qed.

(** X13: the keys of the report start with [name] and [type], in this order,
    are pairwise distinct, and are [name], [type] and the keys of the analysis,
    no other. *)
Theorem final_response_keys (place_name place_type : pyval) (analysis : Dict.t) :
  let keys :=
    Dict.keys
      (Dict.update [("name", place_name); ("type", place_type)] analysis) in
  firstn 2 keys = ["name"; "type"]
  /\ NoDup keys
  /\ forall k,
       In k keys <-> k = "name" \/ k = "type" \/ In k (Dict.keys analysis).
Proof.
  destruct (keys_update analysis [("name", place_name); ("type", place_type)])
    as [added [Hk [Hnd [Hsub Hsup]]]].
  cbv zeta. rewrite Hk. cbn [Dict.keys map fst app firstn] in *.
  split; [reflexivity|]. split.
  - apply Hnd. repeat constructor; cbn; intuition discriminate.
  - intros k. split.
    + intros [<-|[<-|H]]; auto.
    + intros [->|[->|H]]; [now left | right; now left | now apply Hsup].
Qed.

(** ** Runs of [main] *)

(** The credentials as [main] accepts them. *)
Lemma main_with_credentials lib w latitude longitude maps_key gemini_key :
  getenv w "GOOGLE_MAPS_API_KEY" = Some maps_key ->
  maps_key <> EmptyString ->
  getenv w "GEMINI_API_KEY" = Some gemini_key ->
  gemini_key <> EmptyString ->
  main lib w latitude longitude =
  after [Print ("Searching for nearest infrastructure near ("
                ++ py_str lib (PyFloat latitude) ++ ", "
                ++ py_str lib (PyFloat longitude) ++ ")...")]
    (nearest_place <- find_nearest_place lib w latitude longitude maps_key ;;
     if negb (truthy nearest_place) then
       print "Could not find any nearby infrastructure. Exiting."
     else
       place_name <- place_name_of nearest_place ;;
       place_type <- place_type_of nearest_place ;;
       print ("Found nearest place: " ++ py_str lib place_name
              ++ " (Type: " ++ place_type ++ ")") ;;;
       print "Fetching current climate data..." ;;;
       humidity <- get_current_humidity lib w latitude longitude ;;
       humidity <-
         (if is_None humidity then
            print "Could not retrieve humidity data. Proceeding without it." ;;;
            ret (PyStr "not available")
          else ret humidity) ;;
       print "Generating AI analysis..." ;;;
       ai_analysis <-
         generate_infrastructure_analysis lib w place_name (PyStr place_type)
           humidity gemini_key ;;
       final_report lib place_name place_type ai_analysis).
Proof.
  intros Hmk Hmk' Hgk Hgk'. unfold main. cbv zeta.
  rewrite Hmk, Hgk. cbn [env_falsy env_str].
  apply String.eqb_neq in Hmk', Hgk'. rewrite Hmk', Hgk'.
  unfold print at 1, emit at 1. exact (bind_after _ tt _).
Qed.

Lemma main_place_falsy lib w latitude longitude maps_key gemini_key tr place :
  getenv w "GOOGLE_MAPS_API_KEY" = Some maps_key ->
  maps_key <> EmptyString ->
  getenv w "GEMINI_API_KEY" = Some gemini_key ->
  gemini_key <> EmptyString ->
  find_nearest_place lib w latitude longitude maps_key = (tr, Return place) ->
  truthy place = false ->
  main lib w latitude longitude =
    ((Print ("Searching for nearest infrastructure near ("
             ++ py_str lib (PyFloat latitude) ++ ", "
             ++ py_str lib (PyFloat longitude) ++ ")...")
      :: tr
      ++ [Print "Could not find any nearby infrastructure. Exiting."])%list,
     Return tt).
Proof.
  intros Hmk Hmk' Hgk Hgk' Hfind Hfalsy.
  rewrite (main_with_credentials _ _ _ _ _ _ Hmk Hmk' Hgk Hgk'), Hfind.
  unfold after. cbn [bind]. rewrite Hfalsy. reflexivity.
Qed.

(** X14: when the place search answers with another status than "OK", [main]
    makes that one request, prints the status with the service's error message
    (or "No results found."), then the no-infrastructure line, and returns. *)
Theorem main_reports_places_status lib w latitude longitude maps_key gemini_key
    r d :
  getenv w "GOOGLE_MAPS_API_KEY" = Some maps_key ->
  maps_key <> EmptyString ->
  getenv w "GEMINI_API_KEY" = Some gemini_key ->
  gemini_key <> EmptyString ->
  http_get w places_url (places_params lib latitude longitude maps_key)
    = Return r ->
  is_2xx r ->
  json_body r = Return (PyDict d) ->
  Dict.get d "status" <> Some (PyStr "OK") ->
  let status :=
    match Dict.get d "status" with Some x => x | None => PyNone end in
  let message :=
    match Dict.get d "error_message" with
    | Some x => x
    | None => PyStr "No results found."
    end in
  main lib w latitude longitude =
    ([ Print ("Searching for nearest infrastructure near ("
              ++ py_str lib (PyFloat latitude) ++ ", "
              ++ py_str lib (PyFloat longitude) ++ ")...");
       HttpGet places_url (places_params lib latitude longitude maps_key);
       Print ("Error from Places API: " ++ py_str lib status ++ " - "
              ++ py_str lib message);
       Print "Could not find any nearby infrastructure. Exiting." ],
     Return tt).
Proof.
  intros Hmk Hmk' Hgk Hgk' Hget H2 Hb Hs status message.
  apply (main_place_falsy lib w latitude longitude maps_key gemini_key
           [HttpGet places_url (places_params lib latitude longitude maps_key);
            Print ("Error from Places API: " ++ py_str lib status ++ " - "
                   ++ py_str lib message)] PyNone);
    try assumption; [|reflexivity].
  unfold find_nearest_place, requests_get. cbv zeta. cbn [bind emit lift].
  rewrite Hget, (raise_for_status_2xx r H2), Hb.
  cbn -[String.eqb py_eq_str]. rewrite (py_eq_str_not_OK d Hs). reflexivity.
Qed.

Lemma main_reports_places_status_witness :
  main Sample.lib
    (Sample.world (Some "maps-key") (Some "gemini-key") Sample.places_zero Sample.weather_ok (Sample.reply Sample.critical_reply))
    Sample.latitude Sample.longitude
  = ([ Print "Searching for nearest infrastructure near (<float>, <float>)...";
       HttpGet places_url
         (places_params Sample.lib Sample.latitude Sample.longitude "maps-key");
       Print "Error from Places API: ZERO_RESULTS - No results found.";
       Print "Could not find any nearby infrastructure. Exiting." ],
     Return tt).
Proof.
  apply (main_reports_places_status Sample.lib _ _ _ "maps-key" "gemini-key"
           {| status_code := 200; http_error_msg := EmptyString;
              json_body :=
                Return (PyDict [("status", PyStr "ZERO_RESULTS");
                                ("results", PyList [])]) |}
           [("status", PyStr "ZERO_RESULTS"); ("results", PyList [])]);
    first [reflexivity | discriminate | unfold is_2xx; simpl; lia].
Defined.

(** X15: when the place search request fails, [main] prints the request
    error, then the no-infrastructure line, and returns without another call. *)
Theorem main_survives_places_failure lib w latitude longitude maps_key
    gemini_key e :
  getenv w "GOOGLE_MAPS_API_KEY" = Some maps_key ->
  maps_key <> EmptyString ->
  getenv w "GEMINI_API_KEY" = Some gemini_key ->
  gemini_key <> EmptyString ->
  http_get w places_url (places_params lib latitude longitude maps_key)
    = Raise e ->
  is_RequestException e = true ->
  main lib w latitude longitude =
    ([ Print ("Searching for nearest infrastructure near ("
              ++ py_str lib (PyFloat latitude) ++ ", "
              ++ py_str lib (PyFloat longitude) ++ ")...");
       HttpGet places_url (places_params lib latitude longitude maps_key);
       Print ("An error occurred during the Places API request: " ++ exn_msg e);
       Print "Could not find any nearby infrastructure. Exiting." ],
     Return tt).
Proof.
  intros Hmk Hmk' Hgk Hgk' Hget He.
  apply (main_place_falsy lib w latitude longitude maps_key gemini_key
           [HttpGet places_url (places_params lib latitude longitude maps_key);
            Print ("An error occurred during the Places API request: "
                   ++ exn_msg e)] PyNone);
    try assumption; [|reflexivity].
  unfold find_nearest_place, requests_get. cbv zeta. cbn [bind emit lift].
  rewrite Hget. cbn. rewrite He. reflexivity.
Qed.

Lemma main_survives_places_failure_witness :
  main Sample.lib
    (Sample.world (Some "maps-key") (Some "gemini-key")
       (Raise (Exn RequestException "Connection refused")) Sample.weather_ok
       (Sample.reply Sample.critical_reply))
    Sample.latitude Sample.longitude
  = ([ Print "Searching for nearest infrastructure near (<float>, <float>)...";
       HttpGet places_url
         (places_params Sample.lib Sample.latitude Sample.longitude "maps-key");
       Print "An error occurred during the Places API request: Connection refused";
       Print "Could not find any nearby infrastructure. Exiting." ],
     Return tt).
Proof.
  apply (main_survives_places_failure Sample.lib _ _ _ "maps-key" "gemini-key"
           (Exn RequestException "Connection refused"));
    first [reflexivity | discriminate].
Defined.

(** X16: when the category of the place found cannot be derived, the exception
    of the derivation leaves [main] right after the place search: nothing
    more is printed and no climate request is made. *)
Theorem main_stops_on_underivable_category lib w latitude longitude maps_key
    gemini_key tr place place_name e :
  getenv w "GOOGLE_MAPS_API_KEY" = Some maps_key ->
  maps_key <> EmptyString ->
  getenv w "GEMINI_API_KEY" = Some gemini_key ->
  gemini_key <> EmptyString ->
  find_nearest_place lib w latitude longitude maps_key = (tr, Return place) ->
  truthy place = true ->
  place_name_of place = ret place_name ->
  place_type_of place = lift (Raise e) ->
  main lib w latitude longitude =
    ((Print ("Searching for nearest infrastructure near ("
             ++ py_str lib (PyFloat latitude) ++ ", "
             ++ py_str lib (PyFloat longitude) ++ ")...") :: tr)%list,
     Raise e).
Proof.
  intros Hmk Hmk' Hgk Hgk' Hfind Htruthy Hname Htype.
  rewrite (main_with_credentials _ _ _ _ _ _ Hmk Hmk' Hgk Hgk'), Hfind.
  unfold after. cbn [bind]. rewrite Htruthy. cbn [negb].
  rewrite Hname, Htype. cbn. now rewrite app_nil_r.
Qed.

Lemma main_stops_on_underivable_category_witness :
  main Sample.lib
    (Sample.world (Some "maps-key") (Some "gemini-key") (Sample.ok (PyDict [("status", PyStr "OK"); ("results", PyList [PyDict [("name", PyStr "Depot"); ("types", PyList [])]])])) Sample.weather_ok (Sample.reply Sample.critical_reply))
    Sample.latitude Sample.longitude
  = ([ Print "Searching for nearest infrastructure near (<float>, <float>)...";
       HttpGet places_url
         (places_params Sample.lib Sample.latitude Sample.longitude "maps-key") ],
     Raise (Exn IndexError "list index out of range")).
Proof.
  apply (main_stops_on_underivable_category Sample.lib _ _ _ "maps-key"
           "gemini-key" _
           (PyDict [("name", PyStr "Depot"); ("types", PyList [])])
           (PyStr "Depot"));
    first [reflexivity | discriminate].
Defined.

(** X17: a humidity reading other than [None], zero included, is handed to the
    generator as it is, with no notice printed, and is shown in the prompt. *)
Theorem main_keeps_humidity_reading lib w latitude longitude gemini_key tr
    place_name place_type t2 h :
  place_resolved lib w latitude longitude gemini_key tr place_name place_type ->
  get_current_humidity lib w latitude longitude = (t2, Return h) ->
  h <> PyNone ->
  main lib w latitude longitude =
    after (opening lib latitude longitude tr place_name place_type ++ t2
           ++ [Print "Generating AI analysis..."])
      (ai_analysis <-
         generate_infrastructure_analysis lib w place_name (PyStr place_type)
           h gemini_key ;;
       final_report lib place_name place_type ai_analysis)
  /\ Str.contains ("- Current Local Humidity: " ++ py_str lib h ++ "%")
       (prompt_of lib place_name (PyStr place_type) h) = true.
Proof.
  intros Hplace Hhum Hh. split; [|apply prompt_lines].
  rewrite (main_reaches_generator _ _ _ _ _ _ _ _ _ _ Hplace Hhum).
  unfold humidity_passed, humidity_notice.
  destruct h; try reflexivity. now contradiction Hh.
Qed.

Lemma main_keeps_humidity_reading_witness :
  Str.contains "- Current Local Humidity: <int>%"
    (prompt_of Sample.lib (PyStr "UNC Hospital") (PyStr "Hospital") (PyInt 0))
  = true.
Proof.
  set (w := (Sample.world (Some "maps-key") (Some "gemini-key") Sample.places_ok (Sample.ok (PyDict [("current", PyDict [("relative_humidity_2m", PyInt 0)])])) (Sample.reply Sample.critical_reply))).
  refine (proj2 (main_keeps_humidity_reading Sample.lib w Sample.latitude
                   Sample.longitude "gemini-key"
                   (fst (find_nearest_place Sample.lib w Sample.latitude
                           Sample.longitude "maps-key"))
                   (PyStr "UNC Hospital") "Hospital"
                   (fst (get_current_humidity Sample.lib w Sample.latitude
                           Sample.longitude))
                   (PyInt 0) _ _ _)).
  - apply (Place_resolved _ _ _ _ _ _ _ _ "maps-key" Sample.hospital);
      first [reflexivity | discriminate].
  - reflexivity.
  - discriminate.
Defined.

(** X18: when the analysis is truthy but not an object (a list, a text, a
    number), unpacking it into the report raises [TypeError]: [main] raises and
    prints neither the banner nor a report. *)
Theorem main_raises_on_non_object_analysis lib w latitude longitude gemini_key
    tr place_name place_type t2 h t3 ai_analysis :
  place_resolved lib w latitude longitude gemini_key tr place_name place_type ->
  get_current_humidity lib w latitude longitude = (t2, Return h) ->
  generate_infrastructure_analysis lib w place_name (PyStr place_type)
    (humidity_passed h) gemini_key = (t3, Return ai_analysis) ->
  truthy ai_analysis = true ->
  is_dict ai_analysis = false ->
  main lib w latitude longitude =
    ((opening lib latitude longitude tr place_name place_type ++ t2
      ++ humidity_notice h ++ [Print "Generating AI analysis..."] ++ t3)%list,
     Raise (Exn TypeError
              ("'" ++ type_name ai_analysis ++ "' object is not a mapping"))).
Proof.
  intros Hplace Hhum Hgen Htruthy Hnd.
  rewrite (main_reaches_generator _ _ _ _ _ _ _ _ _ _ Hplace Hhum), Hgen.
  unfold after, final_report, bind. rewrite Htruthy. cbn [negb].
  destruct ai_analysis; try discriminate Hnd;
    cbn [py_unpack_into lift fst snd app]; f_equal;
    rewrite <- !app_assoc, ?app_nil_r; reflexivity.
Qed.

Lemma main_raises_on_non_object_analysis_witness :
  snd (main {| json_loads := fun _ => Return (PyList [PyInt 1]);
               json_dumps := json_dumps Sample.lib;
               py_repr := py_repr Sample.lib |}
         (Sample.world (Some "maps-key") (Some "gemini-key") Sample.places_ok Sample.weather_ok (Sample.reply "[1]"))
         Sample.latitude Sample.longitude)
  = Raise (Exn TypeError "'list' object is not a mapping").
Proof.
  set (lib := {| json_loads := fun _ => Return (PyList [PyInt 1]);
                 json_dumps := json_dumps Sample.lib;
                 py_repr := py_repr Sample.lib |}).
  set (w := (Sample.world (Some "maps-key") (Some "gemini-key") Sample.places_ok Sample.weather_ok (Sample.reply "[1]"))).
  rewrite (main_raises_on_non_object_analysis lib w Sample.latitude
             Sample.longitude "gemini-key"
             (fst (find_nearest_place lib w Sample.latitude Sample.longitude
                     "maps-key"))
             (PyStr "UNC Hospital") "Hospital"
             (fst (get_current_humidity lib w Sample.latitude Sample.longitude))
             (PyInt 62)
             (fst (generate_infrastructure_analysis lib w (PyStr "UNC Hospital")
                     (PyStr "Hospital") (PyInt 62) "gemini-key"))
             (PyList [PyInt 1]));
    [ reflexivity
    | apply (Place_resolved _ _ _ _ _ _ _ _ "maps-key" Sample.hospital);
      first [reflexivity | discriminate]
    | reflexivity .. ].
Defined.

Lemma generator_on_failed_call lib w place_name place_type humidity api_key e :
  api_key <> EmptyString ->
  genai_configure w api_key = Return tt ->
  generate_content w (prompt_of lib place_name place_type humidity) = Raise e ->
  is_Exception e = true ->
  generate_infrastructure_analysis lib w place_name place_type humidity api_key
  = ([ GenaiConfigure api_key;
       GenerateContent (prompt_of lib place_name place_type humidity);
       Print ("An error occurred during Gemini API call: " ++ exn_msg e) ],
     Raise unbound_response).
Proof.
  intros Hkey Hconf Hgen He. unfold generate_infrastructure_analysis.
  apply String.eqb_neq in Hkey. rewrite Hkey.
  cbv zeta. unfold try_assign_except, try_except, bind, emit, lift, ret, print.
  rewrite Hconf. cbn [negb app]. rewrite Hgen. cbn [app]. rewrite He.
  reflexivity.
Qed.

(** X19: when the model call raises, the [UnboundLocalError] of the generator
    leaves [main] too: the run ends on the generator's error line, without
    the analysis-failure line. *)
Theorem main_raises_when_model_call_fails lib w latitude longitude gemini_key
    tr place_name place_type t2 h e :
  place_resolved lib w latitude longitude gemini_key tr place_name place_type ->
  get_current_humidity lib w latitude longitude = (t2, Return h) ->
  genai_configure w gemini_key = Return tt ->
  generate_content w
    (prompt_of lib place_name (PyStr place_type) (humidity_passed h)) = Raise e ->
  is_Exception e = true ->
  main lib w latitude longitude =
    ((opening lib latitude longitude tr place_name place_type ++ t2
      ++ humidity_notice h
      ++ [ Print "Generating AI analysis...";
           GenaiConfigure gemini_key;
           GenerateContent
             (prompt_of lib place_name (PyStr place_type) (humidity_passed h));
           Print ("An error occurred during Gemini API call: " ++ exn_msg e) ])%list,
     Raise unbound_response).
Proof.
  intros Hplace Hhum Hconf Hgen He.
  rewrite (main_reaches_generator _ _ _ _ _ _ _ _ _ _ Hplace Hhum).
  destruct Hplace as [mk place _ _ _ Hgk _ _ _ _].
  rewrite (generator_on_failed_call _ _ _ _ _ _ _ Hgk Hconf Hgen He).
  unfold after, bind. cbn [fst snd]. f_equal.
  rewrite <- !app_assoc. reflexivity.
Qed.

Lemma main_raises_when_model_call_fails_witness :
  snd (main Sample.lib
         (Sample.world (Some "maps-key") (Some "gemini-key") Sample.places_ok Sample.weather_ok (Raise (Exn OtherException "403 API key not valid")))
         Sample.latitude Sample.longitude)
  = Raise unbound_response.
Proof.
  set (w := (Sample.world (Some "maps-key") (Some "gemini-key") Sample.places_ok Sample.weather_ok (Raise (Exn OtherException "403 API key not valid")))).
  rewrite (main_raises_when_model_call_fails Sample.lib w Sample.latitude
             Sample.longitude "gemini-key"
             (fst (find_nearest_place Sample.lib w Sample.latitude
                     Sample.longitude "maps-key"))
             (PyStr "UNC Hospital") "Hospital"
             (fst (get_current_humidity Sample.lib w Sample.latitude
                     Sample.longitude))
             (PyInt 62) (Exn OtherException "403 API key not valid"));
    [ reflexivity
    | apply (Place_resolved _ _ _ _ _ _ _ _ "maps-key" Sample.hospital);
      first [reflexivity | discriminate]
    | reflexivity .. ].
Defined.

Lemma net_find lib w lat lon api_key :
  network_calls (fst (find_nearest_place lib w lat lon api_key))
    = [HttpGet places_url (places_params lib lat lon api_key)].
Proof.
  destruct (find_nearest_place_trace lib w lat lon api_key) as [lines [-> _]].
  unfold network_calls. cbn [filter is_network].
  now rewrite (network_calls_prints lines : filter _ _ = []).
Qed.

Lemma net_humidity lib w lat lon :
  network_calls (fst (get_current_humidity lib w lat lon))
    = [HttpGet (weather_url lib lat lon) []].
Proof.
  destruct (get_current_humidity_trace lib w lat lon) as [lines [-> _]].
  unfold network_calls. cbn [filter is_network].
  now rewrite (network_calls_prints lines : filter _ _ = []).
Qed.

Lemma net_final_report lib place_name place_type ai_analysis :
  network_calls (fst (final_report lib place_name place_type ai_analysis)) = [].
Proof.
  unfold final_report. destruct (truthy ai_analysis); [|reflexivity].
  cbn [negb]. destruct ai_analysis; reflexivity.
Qed.

(** X20: in every run the network calls of [main] are an initial part of: the
    place search, the forecast request, one model call. *)
Theorem main_network_calls_in_order lib w latitude longitude :
  exists prompt rest,
    (network_calls (fst (main lib w latitude longitude)) ++ rest)%list
    = [ HttpGet places_url
          (places_params lib latitude longitude
             (env_str (getenv w "GOOGLE_MAPS_API_KEY")));
        HttpGet (weather_url lib latitude longitude) [];
        GenerateContent prompt ].
Proof.
  unfold main. cbv zeta.
  destruct (env_falsy (getenv w "GOOGLE_MAPS_API_KEY"));
    [exists EmptyString; now eexists|].
  destruct (env_falsy (getenv w "GEMINI_API_KEY"));
    [exists EmptyString; now eexists|].
  rewrite net_bind. cbn [print emit fst snd network_calls filter is_network app].
  rewrite net_bind, net_find. cbn [app].
  destruct (snd (find_nearest_place _ _ _ _ _)) as [place|e];
    [|exists EmptyString; now eexists].
  destruct (negb (truthy place)); [exists EmptyString; now eexists|].
  rewrite net_bind. unfold place_name_of at 1 2. cbn [lift fst snd app].
  destruct (py_get place "name" _) as [place_name|e];
    [|exists EmptyString; now eexists].
  rewrite net_bind.
  assert (Hquiet : network_calls (fst (place_type_of place)) = []).
  { unfold place_type_of, bind, lift, ret.
    destruct (py_get place "types" _) as [ts|]; [|reflexivity].
    destruct (py_first ts) as [t|]; [|reflexivity].
    destruct (py_replace t "_" " "); reflexivity. }
  rewrite Hquiet. cbn [app].
  destruct (snd (place_type_of place)) as [place_type|e];
    [|exists EmptyString; now eexists].
  rewrite net_bind. cbn [print emit fst snd network_calls filter is_network app].
  rewrite net_bind. cbn [print emit fst snd network_calls filter is_network app].
  rewrite net_bind, net_humidity. cbn [app].
  destruct (snd (get_current_humidity _ _ _ _)) as [h|e];
    [|exists EmptyString; now eexists].
  rewrite net_bind.
  destruct (is_None h);
    cbn [print emit ret fst snd network_calls filter is_network app];
    repeat (first [rewrite net_bind | rewrite snd_bind];
            cbn [print emit ret fst snd network_calls filter is_network app]);
    match goal with
    | |- context [generate_infrastructure_analysis lib w ?n ?t ?x ?k] =>
        exists (prompt_of lib n t x);
        destruct (generate_network lib w n t x k) as [-> | ->];
        destruct (snd (generate_infrastructure_analysis lib w n t x k));
        rewrite ?net_final_report; eexists; cbn [app]; reflexivity
    end.
Qed.

(** X21: an empty credential counts as a missing one, and the place-search
    credential is checked first: one error line naming the first credential
    that is unset, and nothing else. *)
Theorem main_credential_checks lib w latitude longitude :
  (getenv w "GOOGLE_MAPS_API_KEY" = None
   \/ getenv w "GOOGLE_MAPS_API_KEY" = Some EmptyString ->
   main lib w latitude longitude =
     ([Print "Error: GOOGLE_MAPS_API_KEY environment variable not set."],
      Return tt))
  /\ (forall maps_key,
        getenv w "GOOGLE_MAPS_API_KEY" = Some maps_key ->
        maps_key <> EmptyString ->
        getenv w "GEMINI_API_KEY" = None
        \/ getenv w "GEMINI_API_KEY" = Some EmptyString ->
        main lib w latitude longitude =
          ([Print "Error: GEMINI_API_KEY environment variable not set."],
           Return tt)).
Proof.
  unfold main. cbv zeta. split.
  - intros [-> | ->]; reflexivity.
  - intros mk -> Hmk H. cbn [env_falsy].
    apply String.eqb_neq in Hmk. rewrite Hmk.
    destruct H as [-> | ->]; reflexivity.
Qed.
